(** * cocotbext.pcie.core.bridge: bridge configuration space and TLP routing

    A shallow embedding of [cocotbext/pcie/core/bridge.py]: the type 1
    configuration register file of [Bridge] ([read_config_register],
    [write_config_register]), the two routing tables of a bridge
    ([upstream_recv], [downstream_recv]) and the fan-out router of a switch
    upstream port ([SwitchUpstreamPort.route_downstream_tlp]).

    Python integers are unbounded, so every register and every operand is a
    [Z] and the bit operators are those of [Z].  Coroutines are run to
    completion: a routing method yields the trace of the calls it makes on
    its collaborators (transmit handlers, neighbour ports, [handle_tlp])
    together with its outcome, normal return or a raised exception. *)

From Stdlib Require Import ZArith List String Bool Lia Btauto.
From stdpp Require Import base list.
From coqutil Require Import Z.bitblast.
Import ListNotations.
Local Open Scope Z_scope.
Set Default Proof Using "Type".

(** ** Exceptions and results *)

Inductive Exn : Type :=
| Exception (msg : string)
| AssertionError
| IndexError
| RecursionError.

Inductive Result (A : Type) : Type :=
| Ok (a : A)
| Raise (e : Exn).
Arguments Ok {A} a.
Arguments Raise {A} e.

Definition bindR {A B : Type} (m : Result A) (k : A -> Result B) : Result B :=
  match m with
  | Ok a => k a
  | Raise e => Raise e
  end.

Notation "'try!' x := m 'in' k" := (bindR m (fun x => k))
  (at level 10, x name, m at level 100, k at level 200).

(** Python's [l[i]] for a non-negative constant [i]. *)
Definition index (l : list Z) (i : nat) : Result Z :=
  match l !! i with
  | Some x => Ok x
  | None => Raise IndexError
  end.

(** Truth value of an integer in a condition. *)
Definition truthy (z : Z) : bool := negb (z =? 0).

(** ** utils *)

(** Byte lanes selected by a byte-enable mask: bit [i] of the mask selects
    bits [8i .. 8i+7]. *)
Fixpoint lanes_pos (p : positive) : Z :=
  match p with
  | xH => 0xff
  | xO p' => Z.shiftl (lanes_pos p') 8
  | xI p' => Z.lor 0xff (Z.shiftl (lanes_pos p') 8)
  end.

Definition byte_lanes (mask : Z) : Z :=
  match mask with
  | Zpos p => lanes_pos p
  | _ => 0
  end.

(** Modelled from the spec: [utils.byte_mask_update] is imported by
    bridge.py and its body is not part of the sources at hand.  For each set
    bit [i] of the byte-enable [mask], bytes [8i, 8i+8) of [old] are replaced
    with the corresponding bytes of the incoming value, the remaining bytes
    are preserved; the incoming value is first ANDed with the decode mask
    [bitmask].  A call without decode mask passes [-1] (all ones). *)
Definition byte_mask_update (old mask new bitmask : Z) : Z :=
  Z.lor (Z.land old (Z.lnot (byte_lanes mask)))
        (Z.land (Z.land new bitmask) (byte_lanes mask)).

(** Modelled from the spec: [utils.PcieId], the (bus, device, function)
    triple; two identities are equal iff the three components are. *)
Record PcieId : Type := mkPcieId { bus : Z; device : Z; function : Z }.

Definition PcieId_eqb (a b : PcieId) : bool :=
  (bus a =? bus b) && (device a =? device b) && (function a =? function b).

(** ** tlp *)

(** The packet kinds bridge.py dispatches on; [OTHER] stands for every
    other member of [TlpType]. *)
Inductive TlpType : Type :=
| CFG_READ_0 | CFG_WRITE_0 | CFG_READ_1 | CFG_WRITE_1
| CPL | CPL_DATA | CPL_LOCKED | CPL_LOCKED_DATA
| MSG_ID | MSG_DATA_ID
| IO_READ | IO_WRITE
| MEM_READ | MEM_READ_64 | MEM_WRITE | MEM_WRITE_64
| MSG_TO_RC | MSG_DATA_TO_RC
| MSG_BCAST | MSG_DATA_BCAST
| MSG_LOCAL | MSG_DATA_LOCAL
| MSG_GATHER | MSG_DATA_GATHER
| OTHER (code : Z).

Inductive CplStatus : Type := SC | UR | CRS | CA.

Record Tlp : Type := mkTlp {
  fmt_type : TlpType;
  requester_id : PcieId;
  dest_id : PcieId;
  completer_id : PcieId;
  address : Z;
  status : CplStatus;
  payload : list Z
}.

Definition set_fmt_type (t : TlpType) (tlp : Tlp) : Tlp :=
  {| fmt_type := t; requester_id := requester_id tlp; dest_id := dest_id tlp;
     completer_id := completer_id tlp; address := address tlp;
     status := status tlp; payload := payload tlp |}.

(** Modelled from the spec: [Tlp.create_ur_completion_for_tlp], an
    Unsupported-Request completion addressed back to the originating identity
    of [tlp], with [completer] as the responder. *)
Definition create_ur_completion_for_tlp (tlp : Tlp) (completer : PcieId) : Tlp :=
  {| fmt_type := CPL; requester_id := requester_id tlp;
     dest_id := mkPcieId 0 0 0; completer_id := completer; address := 0;
     status := UR; payload := [] |}.

(** ** function: the state of the base class that bridge.py touches *)

Record Function : Type := mkFunction {
  pcie_id : PcieId;
  header_layout : Z;
  multifunction_device : bool;
  vendor_id : Z;
  device_id : Z;
  class_code : Z;
  pcie_device_type : Z;
  bar : list Z;
  bar_mask : list Z;
  capabilities_ptr : Z;
  expansion_rom_addr : Z;
  expansion_rom_addr_mask : Z;
  expansion_rom_enable : bool;
  interrupt_line : Z;
  interrupt_pin : Z
}.

Definition bus_num (f : Function) : Z := bus (pcie_id f).
Definition device_num (f : Function) : Z := device (pcie_id f).
Definition function_num (f : Function) : Z := function (pcie_id f).

Definition Function_eta (f : Function) : Function :=
  {| pcie_id := pcie_id f; header_layout := header_layout f;
     multifunction_device := multifunction_device f; vendor_id := vendor_id f;
     device_id := device_id f; class_code := class_code f;
     pcie_device_type := pcie_device_type f; bar := bar f; bar_mask := bar_mask f;
     capabilities_ptr := capabilities_ptr f; expansion_rom_addr := expansion_rom_addr f;
     expansion_rom_addr_mask := expansion_rom_addr_mask f;
     expansion_rom_enable := expansion_rom_enable f;
     interrupt_line := interrupt_line f; interrupt_pin := interrupt_pin f |}.

(** Attribute assignment [self.proj = v]: the record rebuilt with the one
    field replaced. *)
Ltac assign eta proj self v :=
  let e := eval cbv beta delta [eta] in (eta self) in
  match eval pattern (proj self) in e with
  | ?k _ => let r := eval cbv beta in (k v) in exact r
  end.

Definition set_header_layout (v : Z) (f : Function) : Function :=
  ltac:(assign Function_eta header_layout f v).
Definition set_multifunction_device (v : bool) (f : Function) : Function :=
  ltac:(assign Function_eta multifunction_device f v).
Definition set_vendor_id (v : Z) (f : Function) : Function :=
  ltac:(assign Function_eta vendor_id f v).
Definition set_device_id (v : Z) (f : Function) : Function :=
  ltac:(assign Function_eta device_id f v).
Definition set_class_code (v : Z) (f : Function) : Function :=
  ltac:(assign Function_eta class_code f v).
Definition set_pcie_device_type (v : Z) (f : Function) : Function :=
  ltac:(assign Function_eta pcie_device_type f v).
Definition set_bar (v : list Z) (f : Function) : Function :=
  ltac:(assign Function_eta bar f v).
Definition set_bar_mask (v : list Z) (f : Function) : Function :=
  ltac:(assign Function_eta bar_mask f v).
Definition set_expansion_rom_addr (v : Z) (f : Function) : Function :=
  ltac:(assign Function_eta expansion_rom_addr f v).
Definition set_expansion_rom_enable (v : bool) (f : Function) : Function :=
  ltac:(assign Function_eta expansion_rom_enable f v).
Definition set_interrupt_line (v : Z) (f : Function) : Function :=
  ltac:(assign Function_eta interrupt_line f v).

(** ** port: transmit handlers *)

Inductive Handler : Type :=
| upstream_port_send
| downstream_port_send
| external_handler (n : nat).

(** ** Bridge: configuration registers *)

Record Bridge : Type := mkBridge {
  fn : Function;
  pri_bus_num : Z;
  sec_bus_num : Z;
  sub_bus_num : Z;
  sec_lat_timer : Z;
  io_base : Z;
  io_limit : Z;
  io_addr_capability : Z;
  master_data_parity_error : bool;
  signaled_target_abort : bool;
  received_target_abort : bool;
  received_master_abort : bool;
  received_system_error : bool;
  detected_parity_error : bool;
  mem_base : Z;
  mem_limit : Z;
  prefetchable_mem_base : Z;
  prefetchable_mem_limit : Z;
  parity_error_response_enable : bool;
  serr_enable : bool;
  secondary_bus_reset : bool;
  root : bool;
  upstream_tx_handler : option Handler;
  downstream_tx_handler : option Handler
}.

Definition Bridge_eta (self : Bridge) : Bridge :=
  {| fn := fn self; pri_bus_num := pri_bus_num self; sec_bus_num := sec_bus_num self;
     sub_bus_num := sub_bus_num self; sec_lat_timer := sec_lat_timer self;
     io_base := io_base self; io_limit := io_limit self;
     io_addr_capability := io_addr_capability self;
     master_data_parity_error := master_data_parity_error self;
     signaled_target_abort := signaled_target_abort self;
     received_target_abort := received_target_abort self;
     received_master_abort := received_master_abort self;
     received_system_error := received_system_error self;
     detected_parity_error := detected_parity_error self;
     mem_base := mem_base self; mem_limit := mem_limit self;
     prefetchable_mem_base := prefetchable_mem_base self;
     prefetchable_mem_limit := prefetchable_mem_limit self;
     parity_error_response_enable := parity_error_response_enable self;
     serr_enable := serr_enable self; secondary_bus_reset := secondary_bus_reset self;
     root := root self; upstream_tx_handler := upstream_tx_handler self;
     downstream_tx_handler := downstream_tx_handler self |}.

Definition set_fn (v : Function) (self : Bridge) : Bridge :=
  ltac:(assign Bridge_eta fn self v).
Definition set_pri_bus_num (v : Z) (self : Bridge) : Bridge :=
  ltac:(assign Bridge_eta pri_bus_num self v).
Definition set_sec_bus_num (v : Z) (self : Bridge) : Bridge :=
  ltac:(assign Bridge_eta sec_bus_num self v).
Definition set_sub_bus_num (v : Z) (self : Bridge) : Bridge :=
  ltac:(assign Bridge_eta sub_bus_num self v).
Definition set_io_base (v : Z) (self : Bridge) : Bridge :=
  ltac:(assign Bridge_eta io_base self v).
Definition set_io_limit (v : Z) (self : Bridge) : Bridge :=
  ltac:(assign Bridge_eta io_limit self v).
Definition set_master_data_parity_error (v : bool) (self : Bridge) : Bridge :=
  ltac:(assign Bridge_eta master_data_parity_error self v).
Definition set_signaled_target_abort (v : bool) (self : Bridge) : Bridge :=
  ltac:(assign Bridge_eta signaled_target_abort self v).
Definition set_received_target_abort (v : bool) (self : Bridge) : Bridge :=
  ltac:(assign Bridge_eta received_target_abort self v).
Definition set_received_master_abort (v : bool) (self : Bridge) : Bridge :=
  ltac:(assign Bridge_eta received_master_abort self v).
Definition set_received_system_error (v : bool) (self : Bridge) : Bridge :=
  ltac:(assign Bridge_eta received_system_error self v).
Definition set_detected_parity_error (v : bool) (self : Bridge) : Bridge :=
  ltac:(assign Bridge_eta detected_parity_error self v).
Definition set_mem_base (v : Z) (self : Bridge) : Bridge :=
  ltac:(assign Bridge_eta mem_base self v).
Definition set_mem_limit (v : Z) (self : Bridge) : Bridge :=
  ltac:(assign Bridge_eta mem_limit self v).
Definition set_prefetchable_mem_base (v : Z) (self : Bridge) : Bridge :=
  ltac:(assign Bridge_eta prefetchable_mem_base self v).
Definition set_prefetchable_mem_limit (v : Z) (self : Bridge) : Bridge :=
  ltac:(assign Bridge_eta prefetchable_mem_limit self v).
Definition set_parity_error_response_enable (v : bool) (self : Bridge) : Bridge :=
  ltac:(assign Bridge_eta parity_error_response_enable self v).
Definition set_serr_enable (v : bool) (self : Bridge) : Bridge :=
  ltac:(assign Bridge_eta serr_enable self v).
Definition set_secondary_bus_reset (v : bool) (self : Bridge) : Bridge :=
  ltac:(assign Bridge_eta secondary_bus_reset self v).
Definition set_root (v : bool) (self : Bridge) : Bridge :=
  ltac:(assign Bridge_eta root self v).
Definition set_upstream_tx_handler (v : option Handler) (self : Bridge) : Bridge :=
  ltac:(assign Bridge_eta upstream_tx_handler self v).
Definition set_downstream_tx_handler (v : option Handler) (self : Bridge) : Bridge :=
  ltac:(assign Bridge_eta downstream_tx_handler self v).

(** [Bridge.__init__]; [f0] is the object as [Function.__init__] left it. *)
Definition Bridge_init (f0 : Function) : Bridge :=
  let f := set_header_layout 1 f0 in
  let f := set_multifunction_device false f in
  let f := set_bar [0; 0] f in
  let f := set_bar_mask [0; 0] f in
  let f := set_class_code 0x060400 f in
  let f := set_pcie_device_type 0x6 f in
  {| fn := f;
     pri_bus_num := 0; sec_bus_num := 0; sub_bus_num := 0; sec_lat_timer := 0;
     io_base := 0x0000; io_limit := 0x0fff; io_addr_capability := 0x1;
     master_data_parity_error := false; signaled_target_abort := false;
     received_target_abort := false; received_master_abort := false;
     received_system_error := false; detected_parity_error := false;
     mem_base := 0x00000000; mem_limit := 0x000fffff;
     prefetchable_mem_base := 0x00000000; prefetchable_mem_limit := 0x000fffff;
     parity_error_response_enable := false; serr_enable := false;
     secondary_bus_reset := false;
     root := false;
     upstream_tx_handler := Some upstream_port_send;
     downstream_tx_handler := Some downstream_port_send |}.

Section Bridge.

(** The collaborators that bridge.py calls and does not define: the register
    file of the base class ([super().read_config_register],
    [super().write_config_register]), which acts on the attributes of
    [Function]; [Function.match_bar]; and the validity predicate
    [Tlp.check]. *)
Variable Function_read_config_register : Z -> Function -> Z.
Variable Function_write_config_register : Z -> Z -> Z -> Function -> Function.
Variable match_bar : Function -> Z -> bool -> bool.
Variable check : Tlp -> bool.

(** [Bridge.read_config_register] *)
Definition read_config_register (reg : Z) (self : Bridge) : Result Z :=
  if reg =? 4 then
    (* Base Address Register 0 *)
    index (bar (fn self)) 0
  else if reg =? 5 then
    (* Base Address Register 1 *)
    index (bar (fn self)) 1
  else if reg =? 6 then
    let val := Z.land (pri_bus_num self) 0xff in
    let val := Z.lor val (Z.shiftl (Z.land (sec_bus_num self) 0xff) 8) in
    let val := Z.lor val (Z.shiftl (Z.land (sub_bus_num self) 0xff) 16) in
    let val := Z.lor val (Z.shiftl (Z.land (sec_lat_timer self) 0xff) 24) in
    Ok val
  else if reg =? 7 then
    (* IO base *)
    let val := Z.land (io_addr_capability self) 0xf in
    let val := Z.lor val (Z.shiftr (Z.land (io_base self) 0xf000) 8) in
    (* IO limit *)
    let val := Z.lor val (Z.shiftl (Z.land (io_addr_capability self) 0xf) 8) in
    let val := Z.lor val (Z.land (io_limit self) 0xf000) in
    (* Secondary status *)
    let val := Z.lor val (Z.shiftl (Z.b2z (master_data_parity_error self)) 24) in
    let val := Z.lor val (Z.shiftl (Z.b2z (signaled_target_abort self)) 27) in
    let val := Z.lor val (Z.shiftl (Z.b2z (received_target_abort self)) 28) in
    let val := Z.lor val (Z.shiftl (Z.b2z (received_master_abort self)) 29) in
    let val := Z.lor val (Z.shiftl (Z.b2z (received_system_error self)) 30) in
    let val := Z.lor val (Z.shiftl (Z.b2z (detected_parity_error self)) 31) in
    Ok val
  else if reg =? 8 then
    (* Memory base *)
    let val := Z.shiftr (Z.land (mem_base self) 0xfff00000) 16 in
    (* Memory limit *)
    let val := Z.lor val (Z.land (mem_limit self) 0xfff00000) in
    Ok val
  else if reg =? 9 then
    (* Prefetchable memory base *)
    let val := Z.shiftr (Z.land (prefetchable_mem_base self) 0xfff00000) 16 in
    (* Prefetchable memory limit *)
    let val := Z.lor val (Z.land (prefetchable_mem_limit self) 0xfff00000) in
    Ok val
  else if reg =? 10 then
    Ok (Z.land (Z.shiftr (prefetchable_mem_base self) 32) 0xffffffff)
  else if reg =? 11 then
    Ok (Z.land (Z.shiftr (prefetchable_mem_limit self) 32) 0xffffffff)
  else if reg =? 12 then
    (* IO base (upper) *)
    let val := Z.shiftr (Z.land (io_base self) 0xffff0000) 16 in
    (* IO limit (upper) *)
    let val := Z.lor val (Z.land (io_limit self) 0xffff0000) in
    Ok val
  else if reg =? 13 then
    Ok (capabilities_ptr (fn self))
  else if reg =? 14 then
    let val := Z.b2z (expansion_rom_enable (fn self)) in
    let val := Z.lor val (Z.land (expansion_rom_addr (fn self)) 0xfffff800) in
    Ok val
  else if reg =? 15 then
    (* Interrupt line *)
    let val := Z.land (interrupt_line (fn self)) 0xff in
    (* Interrupt pin *)
    let val := Z.lor val (Z.shiftl (Z.land (interrupt_pin (fn self)) 0xff) 8) in
    (* Bridge control *)
    let val := Z.lor val (Z.shiftl (Z.b2z (parity_error_response_enable self)) 16) in
    let val := Z.lor val (Z.shiftl (Z.b2z (serr_enable self)) 17) in
    let val := Z.lor val (Z.shiftl (Z.b2z (secondary_bus_reset self)) 22) in
    Ok val
  else
    Ok (Function_read_config_register reg (fn self)).

(** [self.bar[i] = byte_mask_update(self.bar[i], mask, data, self.bar_mask[i])];
    both subscripts are read before the item is assigned. *)
Definition update_bar (i : nat) (data mask : Z) (self : Bridge) : Result Bridge :=
  try! old := index (bar (fn self)) i in
  try! bitmask := index (bar_mask (fn self)) i in
  Ok (set_fn (set_bar (<[i := byte_mask_update old mask data bitmask]> (bar (fn self)))
                      (fn self)) self).

(** The secondary status bits of register 7, byte 3: write 1 to clear. *)
Definition clear_secondary_status (data : Z) (self : Bridge) : Bridge :=
  let self := if truthy (Z.land data (Z.shiftl 1 24))
              then set_master_data_parity_error false self else self in
  let self := if truthy (Z.land data (Z.shiftl 1 27))
              then set_signaled_target_abort false self else self in
  let self := if truthy (Z.land data (Z.shiftl 1 28))
              then set_received_target_abort false self else self in
  let self := if truthy (Z.land data (Z.shiftl 1 29))
              then set_received_master_abort false self else self in
  let self := if truthy (Z.land data (Z.shiftl 1 30))
              then set_received_system_error false self else self in
  let self := if truthy (Z.land data (Z.shiftl 1 31))
              then set_detected_parity_error false self else self in
  self.

(** [Bridge.write_config_register].  The test on register 4 is an [if] of
    its own; the chain that starts at register 5 follows it. *)
Definition write_config_register (reg data mask : Z) (self : Bridge) : Result Bridge :=
  try! self := (if reg =? 4 then update_bar 0 data mask self else Ok self) in
  if reg =? 5 then
    update_bar 1 data mask self
  else if reg =? 6 then
    (* Primary bus number *)
    let self := if truthy (Z.land mask 0x1)
                then set_pri_bus_num (Z.land data 0xff) self else self in
    (* Secondary bus number *)
    let self := if truthy (Z.land mask 0x2)
                then set_sec_bus_num (Z.land (Z.shiftr data 8) 0xff) self else self in
    (* Subordinate bus number *)
    let self := if truthy (Z.land mask 0x4)
                then set_sub_bus_num (Z.land (Z.shiftr data 16) 0xff) self else self in
    Ok self
  else if reg =? 7 then
    (* IO base *)
    let self := if truthy (Z.land mask 0x1)
                then set_io_base
                       (byte_mask_update (io_base self) 0x2 (Z.shiftl data 8) 0xf000) self
                else self in
    (* IO limit *)
    let self := if truthy (Z.land mask 0x2)
                then set_io_limit
                       (Z.lor (byte_mask_update (io_limit self) 0x2 data 0xf000) 0xfff) self
                else self in
    (* Secondary status *)
    let self := if truthy (Z.land mask 0x8)
                then clear_secondary_status data self else self in
    Ok self
  else if reg =? 8 then
    (* Memory base *)
    let self := set_mem_base
                  (byte_mask_update (mem_base self) (Z.shiftl (Z.land mask 0x3) 2)
                                    (Z.shiftl data 16) 0xfff00000) self in
    (* Memory limit *)
    let self := set_mem_limit
                  (Z.lor (byte_mask_update (mem_limit self) (Z.land mask 0xc)
                                           data 0xfff00000) 0xfffff) self in
    Ok self
  else if reg =? 9 then
    (* Prefetchable memory base *)
    let self := set_prefetchable_mem_base
                  (byte_mask_update (prefetchable_mem_base self)
                                    (Z.shiftl (Z.land mask 0x3) 2)
                                    (Z.shiftl data 16) 0xfff00000) self in
    (* Prefetchable memory limit *)
    let self := set_prefetchable_mem_limit
                  (Z.lor (byte_mask_update (prefetchable_mem_limit self) (Z.land mask 0xc)
                                           data 0xfff00000) 0xfffff) self in
    Ok self
  else if reg =? 10 then
    (* Prefetchable memory base (upper) *)
    Ok (set_prefetchable_mem_base
          (byte_mask_update (prefetchable_mem_base self) (Z.shiftl mask 4)
                            (Z.shiftl data 32) (-1)) self)
  else if reg =? 11 then
    (* Prefetchable memory limit (upper) *)
    Ok (set_prefetchable_mem_limit
          (byte_mask_update (prefetchable_mem_limit self) (Z.shiftl mask 4)
                            (Z.shiftl data 32) (-1)) self)
  else if reg =? 12 then
    (* IO base (upper) *)
    let self := set_io_base
                  (byte_mask_update (io_base self) (Z.shiftl (Z.land mask 0x3) 2)
                                    (Z.shiftl data 16) (-1)) self in
    (* IO limit (upper) *)
    let self := set_io_limit
                  (byte_mask_update (io_limit self) (Z.land mask 0xc) data (-1)) self in
    Ok self
  else if reg =? 14 then
    (* Expansion ROM Base Address *)
    let f := set_expansion_rom_addr
               (Z.land (byte_mask_update (expansion_rom_addr (fn self)) mask data
                                         (expansion_rom_addr_mask (fn self)))
                       0xfffff800) (fn self) in
    let f := if truthy (Z.land mask 0x1)
             then set_expansion_rom_enable (negb (Z.land data 1 =? 0)) f else f in
    Ok (set_fn f self)
  else if reg =? 15 then
    (* Interrupt line *)
    let f := if truthy (Z.land mask 1)
             then set_interrupt_line (Z.land data 0xff) (fn self) else fn self in
    let self := set_fn f self in
    (* bridge control *)
    let self := if truthy (Z.land mask 0x4)
                then
                  let self := set_parity_error_response_enable
                                (negb (Z.land data (Z.shiftl 1 16) =? 0)) self in
                  let self := set_serr_enable
                                (negb (Z.land data (Z.shiftl 1 17) =? 0)) self in
                  set_secondary_bus_reset (negb (Z.land data (Z.shiftl 1 22) =? 0)) self
                else self in
    Ok self
  else
    Ok (set_fn (Function_write_config_register reg data mask (fn self)) self).

(** A sequence of register writes, as the configuration requests of a
    traversal issue them; a write that raises stops the sequence. *)
Fixpoint write_config_registers (ws : list (Z * Z * Z)) (self : Bridge) : Result Bridge :=
  match ws with
  | [] => Ok self
  | (reg, data, mask) :: ws' =>
      try! self := write_config_register reg data mask self in
      write_config_registers ws' self
  end.

(** The registers that the chain of [write_config_register] handles
    itself; a write to any other index reaches the final [else]. *)
Definition bridge_registers : list Z := [5; 6; 7; 8; 9; 10; 11; 12; 14; 15].

(** The secondary status bits and their positions in register 7. *)
Definition secondary_status_bits : list (Z * (Bridge -> bool)) :=
  [(24, master_data_parity_error); (27, signaled_target_abort);
   (28, received_target_abort); (29, received_master_abort);
   (30, received_system_error); (31, detected_parity_error)].

(** The granularity marker of the three limit registers. *)
Definition limits_forced (self : Bridge) : Prop :=
  Z.land (io_limit self) 0xfff = 0xfff /\
  Z.land (mem_limit self) 0xfffff = 0xfffff /\
  Z.land (prefetchable_mem_limit self) 0xfffff = 0xfffff.

(** ** Routing: effects *)

(** The calls a routing method makes on its collaborators. *)
Inductive Event : Type :=
| handle_tlp (tlp : Tlp)                   (* self.handle_tlp(tlp) *)
| upstream_tx (h : Handler) (tlp : Tlp)    (* self.upstream_tx_handler(tlp) *)
| downstream_tx (h : Handler) (tlp : Tlp)  (* self.downstream_tx_handler(tlp) *)
| ext_recv (p : nat) (tlp : Tlp).          (* p.ext_recv(Tlp(tlp)), p-th port of other *)

(** A computation: the calls made so far, and how it ended. *)
Definition M (A : Type) : Type := (list Event * Result A)%type.

Definition ret {A : Type} (a : A) : M A := ([], Ok a).

Definition bind {A B : Type} (m : M A) (k : A -> M B) : M B :=
  match m with
  | (t, Ok a) => let (t', r) := k a in (t ++ t', r)
  | (t, Raise e) => (t, Raise e)
  end.

Definition call (e : Event) : M unit := ([e], Ok tt).

Definition raise {A : Type} (e : Exn) : M A := ([], Raise e).

Definition assert (b : bool) : M unit :=
  if b then ret tt else raise AssertionError.

Declare Scope M_scope.
Delimit Scope M_scope with M.
Notation "x <- m ;; k" := (bind m (fun x => k))
  (at level 100, m at next level, k at level 200, right associativity) : M_scope.
Notation "m ;; k" := (bind m (fun _ => k))
  (at level 100, k at level 200, right associativity) : M_scope.
Local Open Scope M_scope.

(** [lo <= x <= hi] *)
Definition between (lo x hi : Z) : bool := (lo <=? x) && (x <=? hi).

(** ** Bridge: routing *)

(** [Bridge.upstream_send] *)
Definition upstream_send (self : Bridge) (tlp : Tlp) : M unit :=
  assert (check tlp) ;;
  match upstream_tx_handler self with
  | None => raise (Exception "Transmit handler not set")
  | Some h => call (upstream_tx h tlp)
  end.

(** [Bridge.downstream_send] *)
Definition downstream_send (self : Bridge) (tlp : Tlp) : M unit :=
  assert (check tlp) ;;
  match downstream_tx_handler self with
  | None => raise (Exception "Transmit handler not set")
  | Some h => call (downstream_tx h tlp)
  end.

(** [Bridge.route_downstream_tlp] *)
Definition Bridge_route_downstream_tlp (self : Bridge) (tlp : Tlp)
    (from_downstream : bool) : M unit :=
  downstream_send self tlp.

(** ** SwitchUpstreamPort: the fan-out router *)

(** The parent of a port of [downstream_port.other]: a bridge (a switch
    downstream port, a root port) or another function. *)
Inductive Device : Type :=
| Function_dev (f : Function)
| Bridge_dev (b : Bridge).

Definition dev_fn (dev : Device) : Function :=
  match dev with
  | Function_dev f => f
  | Bridge_dev b => fn b
  end.

(** [isinstance(dev, Bridge) and cond] *)
Definition isinstance_Bridge_and (dev : Device) (cond : Bridge -> bool) : bool :=
  match dev with
  | Function_dev _ => false
  | Bridge_dev b => cond b
  end.

Record SwitchUpstreamPort : Type := mkSwitchUpstreamPort {
  bridge : Bridge;
  (* the parents of the ports of self.downstream_port.other, in order *)
  downstream_port_other : list Device
}.

Definition is_broadcast (t : TlpType) : bool :=
  match t with
  | MSG_BCAST | MSG_DATA_BCAST => true
  | _ => false
  end.

(** How one pass through the body of the [for] loop ends. *)
Inductive Flow : Type :=
| Return
| Continue (ok : bool).

Definition forward (p : nat) (tlp : Tlp) : M Flow :=
  call (ext_recv p tlp) ;; ret Return.

(** The body of the loop of [SwitchUpstreamPort.route_downstream_tlp], for
    the port at position [p], whose parent is [dev]. *)
Definition route_to_port (p : nat) (dev : Device) (tlp : Tlp) (ok : bool) : M Flow :=
  match fmt_type tlp with
  | CFG_READ_0 | CFG_WRITE_0 =>
      (* config type 0 *)
      if (device (dest_id tlp) =? device_num (dev_fn dev))
         && (function (dest_id tlp) =? function_num (dev_fn dev))
      then forward p tlp
      else ret (Continue ok)
  | CFG_READ_1 | CFG_WRITE_1 =>
      (* config type 1 *)
      if isinstance_Bridge_and dev (fun dev =>
           between (sec_bus_num dev) (bus (dest_id tlp)) (sub_bus_num dev))
      then forward p tlp
      else ret (Continue ok)
  | CPL | CPL_DATA | CPL_LOCKED | CPL_LOCKED_DATA =>
      (* Completions *)
      if PcieId_eqb (requester_id tlp) (pcie_id (dev_fn dev))
      then forward p tlp
      else if isinstance_Bridge_and dev (fun dev =>
           between (sec_bus_num dev) (bus (requester_id tlp)) (sub_bus_num dev))
      then forward p tlp
      else ret (Continue ok)
  | MSG_ID | MSG_DATA_ID =>
      (* ID routed message *)
      if PcieId_eqb (dest_id tlp) (pcie_id (dev_fn dev))
      then forward p tlp
      else if isinstance_Bridge_and dev (fun dev =>
           between (sec_bus_num dev) (bus (requester_id tlp)) (sub_bus_num dev))
      then forward p tlp
      else ret (Continue ok)
  | IO_READ | IO_WRITE =>
      (* IO read/write *)
      if match_bar (dev_fn dev) (address tlp) true
      then forward p tlp
      else if isinstance_Bridge_and dev (fun dev =>
           between (io_base dev) (address tlp) (io_limit dev))
      then forward p tlp
      else ret (Continue ok)
  | MEM_READ | MEM_READ_64 | MEM_WRITE | MEM_WRITE_64 =>
      (* Memory read/write *)
      if match_bar (dev_fn dev) (address tlp) false
      then forward p tlp
      else if isinstance_Bridge_and dev (fun dev =>
           between (mem_base dev) (address tlp) (mem_limit dev)
           || between (prefetchable_mem_base dev) (address tlp)
                      (prefetchable_mem_limit dev))
      then forward p tlp
      else ret (Continue ok)
  | MSG_TO_RC | MSG_DATA_TO_RC =>
      (* Message to root complex: error *)
      ret (Continue ok)
  | MSG_BCAST | MSG_DATA_BCAST =>
      (* Message broadcast from root complex *)
      call (ext_recv p tlp) ;; ret (Continue true)
  | MSG_LOCAL | MSG_DATA_LOCAL =>
      (* Message local to receiver: error *)
      ret (Continue ok)
  | MSG_GATHER | MSG_DATA_GATHER =>
      (* Message gather to root complex: error *)
      ret (Continue ok)
  | OTHER _ => raise (Exception "Unknown/invalid packet type")
  end.

(** [for p in self.downstream_port.other: ...], from position [p] on:
    [Return] when the method returned inside the loop, [Continue ok] when the
    loop ran to its end and left the flag at [ok]. *)
Fixpoint for_each_port (p : nat) (other : list Device) (tlp : Tlp) (ok : bool) : M Flow :=
  match other with
  | [] => ret (Continue ok)
  | dev :: other' =>
      r <- route_to_port p dev tlp ok ;;
      match r with
      | Return => ret Return
      | Continue ok' => for_each_port (S p) other' tlp ok'
      end
  end.

(** The responder of a synthesized completion:
    [PcieId(self.bus_num, self.device_num, 0)]. *)
Definition completer (self : Bridge) : PcieId :=
  mkPcieId (bus_num (fn self)) (device_num (fn self)) 0.

(** [SwitchUpstreamPort.route_downstream_tlp].  The method calls itself on
    the synthesized completion; [depth] bounds the nesting of calls, as the
    interpreter does. *)
Fixpoint SwitchUpstreamPort_route_downstream_tlp (depth : nat)
    (self : SwitchUpstreamPort) (tlp : Tlp) (from_downstream : bool) : M unit :=
  match depth with
  | O => raise RecursionError
  | S depth' =>
      assert (check tlp) ;;
      (* route downstream packet *)
      r <- for_each_port 0 (downstream_port_other self) tlp false ;;
      match r with
      | Return => ret tt
      | Continue ok =>
          if negb ok then
            (* Unsupported request *)
            let cpl := create_ur_completion_for_tlp tlp (completer (bridge self)) in
            if from_downstream then
              SwitchUpstreamPort_route_downstream_tlp depth' self cpl false
            else
              upstream_send (bridge self) cpl
          else ret tt
      end
  end.

Definition recursion_limit : nat := 1000.

(** ** Nodes: the method [route_downstream_tlp] is dispatched on the class *)

Inductive Node : Type :=
| Bridge_node (b : Bridge)                       (* Bridge, SwitchDownstreamPort, RootPort *)
| SwitchUpstreamPort_node (s : SwitchUpstreamPort).  (* SwitchUpstreamPort, HostBridge *)

Definition node_bridge (self : Node) : Bridge :=
  match self with
  | Bridge_node b => b
  | SwitchUpstreamPort_node s => bridge s
  end.

Definition route_downstream_tlp (self : Node) (tlp : Tlp) (from_downstream : bool) : M unit :=
  match self with
  | Bridge_node b => Bridge_route_downstream_tlp b tlp from_downstream
  | SwitchUpstreamPort_node s =>
      SwitchUpstreamPort_route_downstream_tlp recursion_limit s tlp from_downstream
  end.

(** [tlp.fmt_type = ...]: a type 1 configuration request changed to type 0. *)
Definition change_to_type_0 (tlp : Tlp) : Tlp :=
  match fmt_type tlp with
  | CFG_READ_1 => set_fmt_type CFG_READ_0 tlp
  | CFG_WRITE_1 => set_fmt_type CFG_WRITE_0 tlp
  | _ => tlp
  end.

(** [Bridge.upstream_recv]: a packet that arrives on the upstream port. *)
Definition upstream_recv (node : Node) (tlp : Tlp) : M unit :=
  let self := node_bridge node in
  assert (check tlp) ;;
  match fmt_type tlp with
  | CFG_READ_0 | CFG_WRITE_0 => call (handle_tlp tlp)
  | CFG_READ_1 | CFG_WRITE_1 =>
      (* config type 1 *)
      if between (sec_bus_num self) (bus (dest_id tlp)) (sub_bus_num self) then
        let tlp := if bus (dest_id tlp) =? sec_bus_num self
                   then change_to_type_0 tlp (* targeted to directly connected device *)
                   else tlp in
        route_downstream_tlp node tlp false
      else ret tt (* error *)
  | CPL | CPL_DATA | CPL_LOCKED | CPL_LOCKED_DATA =>
      (* Completions *)
      if negb (root self) && PcieId_eqb (requester_id tlp) (pcie_id (fn self)) then
        call (handle_tlp tlp) (* for me *)
      else if between (sec_bus_num self) (bus (requester_id tlp)) (sub_bus_num self) then
        route_downstream_tlp node tlp false
      else ret tt (* error *)
  | MSG_ID | MSG_DATA_ID =>
      (* ID routed message *)
      if negb (root self) && PcieId_eqb (dest_id tlp) (pcie_id (fn self)) then
        call (handle_tlp tlp) (* for me *)
      else if between (sec_bus_num self) (bus (dest_id tlp)) (sub_bus_num self) then
        route_downstream_tlp node tlp false
      else ret tt (* error *)
  | IO_READ | IO_WRITE =>
      (* IO read/write *)
      if match_bar (fn self) (address tlp) true then
        call (handle_tlp tlp) (* for me *)
      else if between (io_base self) (address tlp) (io_limit self) then
        route_downstream_tlp node tlp false
      else ret tt (* error *)
  | MEM_READ | MEM_READ_64 | MEM_WRITE | MEM_WRITE_64 =>
      (* Memory read/write *)
      if match_bar (fn self) (address tlp) false then
        call (handle_tlp tlp) (* for me *)
      else if between (mem_base self) (address tlp) (mem_limit self)
              || between (prefetchable_mem_base self) (address tlp)
                         (prefetchable_mem_limit self) then
        route_downstream_tlp node tlp false
      else ret tt (* error *)
  | MSG_TO_RC | MSG_DATA_TO_RC => ret tt (* error *)
  | MSG_BCAST | MSG_DATA_BCAST =>
      (* Message broadcast from root complex *)
      route_downstream_tlp node tlp false
  | MSG_LOCAL | MSG_DATA_LOCAL => ret tt (* error *)
  | MSG_GATHER | MSG_DATA_GATHER => ret tt (* error *)
  | OTHER _ => raise (Exception "Unknown/invalid packet type")
  end.

(** [Bridge.downstream_recv]: a packet that arrives on the downstream port. *)
Definition downstream_recv (node : Node) (tlp : Tlp) : M unit :=
  let self := node_bridge node in
  assert (check tlp) ;;
  match fmt_type tlp with
  | CFG_READ_0 | CFG_WRITE_0 | CFG_READ_1 | CFG_WRITE_1 => ret tt (* error *)
  | CPL | CPL_DATA | CPL_LOCKED | CPL_LOCKED_DATA =>
      (* Completions *)
      if negb (root self) && PcieId_eqb (requester_id tlp) (pcie_id (fn self)) then
        call (handle_tlp tlp) (* for me *)
      else if between (sec_bus_num self) (bus (requester_id tlp)) (sub_bus_num self) then
        if root self && (bus (requester_id tlp) =? pri_bus_num self)
           && (device (requester_id tlp) =? 0)
        then upstream_send self tlp
        else route_downstream_tlp node tlp true
      else upstream_send self tlp
  | MSG_ID | MSG_DATA_ID =>
      (* ID routed messages *)
      if negb (root self) && PcieId_eqb (dest_id tlp) (pcie_id (fn self)) then
        call (handle_tlp tlp) (* for me *)
      else if between (sec_bus_num self) (bus (dest_id tlp)) (sub_bus_num self) then
        if root self && (bus (dest_id tlp) =? pri_bus_num self)
           && (device (dest_id tlp) =? 0)
        then upstream_send self tlp
        else route_downstream_tlp node tlp true
      else upstream_send self tlp
  | IO_READ | IO_WRITE =>
      (* IO read/write *)
      if match_bar (fn self) (address tlp) true then
        call (handle_tlp tlp) (* for me *)
      else if between (io_base self) (address tlp) (io_limit self) then
        route_downstream_tlp node tlp true
      else upstream_send self tlp
  | MEM_READ | MEM_READ_64 | MEM_WRITE | MEM_WRITE_64 =>
      (* Memory read/write *)
      if match_bar (fn self) (address tlp) false then
        call (handle_tlp tlp) (* for me *)
      else if between (mem_base self) (address tlp) (mem_limit self)
              || between (prefetchable_mem_base self) (address tlp)
                         (prefetchable_mem_limit self) then
        route_downstream_tlp node tlp true
      else upstream_send self tlp
  | MSG_TO_RC | MSG_DATA_TO_RC =>
      (* Message to root complex *)
      upstream_send self tlp
  | MSG_BCAST | MSG_DATA_BCAST => ret tt (* error *)
  | MSG_LOCAL | MSG_DATA_LOCAL => ret tt (* error *)
  | MSG_GATHER | MSG_DATA_GATHER =>
      (* Message gather to root complex *)
      raise (Exception "TODO")
  | OTHER _ => raise (Exception "Unknown/invalid packet type")
  end.

(** [Bridge.send]: local transmissions are routed as if they came in via the
    downstream port. *)
Definition send (node : Node) (tlp : Tlp) : M unit :=
  downstream_recv node tlp.

(** ** The subclasses *)

(** [SwitchUpstreamPort.__init__] *)
Definition SwitchUpstreamPort_init (f0 : Function) : SwitchUpstreamPort :=
  let self := Bridge_init f0 in
  let self := set_fn (set_pcie_device_type 0x5 (fn self)) self in
  let self := set_downstream_tx_handler None self in
  let self := set_fn (set_vendor_id 0x1234 (fn self)) self in
  let self := set_fn (set_device_id 0x0003 (fn self)) self in
  {| bridge := self; downstream_port_other := [] |}.

(** [SwitchDownstreamPort.__init__] *)
Definition SwitchDownstreamPort_init (f0 : Function) : Bridge :=
  let self := Bridge_init f0 in
  let self := set_fn (set_pcie_device_type 0x6 (fn self)) self in
  let self := set_fn (set_vendor_id 0x1234 (fn self)) self in
  set_fn (set_device_id 0x0004 (fn self)) self.

(** [HostBridge.__init__] *)
Definition HostBridge_init (f0 : Function) : SwitchUpstreamPort :=
  let s := SwitchUpstreamPort_init f0 in
  let self := bridge s in
  let self := set_fn (set_vendor_id 0x1234 (fn self)) self in
  let self := set_fn (set_device_id 0x0001 (fn self)) self in
  let self := set_pri_bus_num 0 self in
  let self := set_sec_bus_num 0 self in
  let self := set_sub_bus_num 255 self in
  let self := set_fn (set_class_code 0x060000 (fn self)) self in
  {| bridge := self; downstream_port_other := downstream_port_other s |}.

(** [RootPort.__init__] *)
Definition RootPort_init (f0 : Function) : Bridge :=
  let self := SwitchDownstreamPort_init f0 in
  let self := set_fn (set_pcie_device_type 0x4 (fn self)) self in
  let self := set_fn (set_vendor_id 0x1234 (fn self)) self in
  set_fn (set_device_id 0x0002 (fn self)) self.

(** ** A small fabric, for the concrete instances

    A switch whose upstream port is function 1:0.0; its two downstream ports
    2:0.0 and 2:1.0 lead to bus 3 and bus 4. *)

Definition function_at (id : PcieId) : Function :=
  {| pcie_id := id; header_layout := 0; multifunction_device := false;
     vendor_id := 0; device_id := 0; class_code := 0; pcie_device_type := 0;
     bar := [0; 0; 0; 0; 0; 0]; bar_mask := [0; 0; 0; 0; 0; 0];
     capabilities_ptr := 0; expansion_rom_addr := 0; expansion_rom_addr_mask := 0;
     expansion_rom_enable := false; interrupt_line := 0; interrupt_pin := 0 |}.

Definition downstream_port_at (id : PcieId) (sec sub : Z) : Bridge :=
  set_sub_bus_num sub
    (set_sec_bus_num sec
       (set_pri_bus_num (bus id) (SwitchDownstreamPort_init (function_at id)))).

Definition switch_ports : list Device :=
  [Bridge_dev (downstream_port_at (mkPcieId 2 0 0) 3 3);
   Bridge_dev (downstream_port_at (mkPcieId 2 1 0) 4 4)].

Definition switch_with (other : list Device) : SwitchUpstreamPort :=
  let s := SwitchUpstreamPort_init (function_at (mkPcieId 1 0 0)) in
  {| bridge := set_sub_bus_num 4 (set_sec_bus_num 2 (set_pri_bus_num 1 (bridge s)));
     downstream_port_other := other |}.

Definition switch : SwitchUpstreamPort := switch_with switch_ports.

Definition packet (t : TlpType) (requester dest : PcieId) (addr : Z) : Tlp :=
  {| fmt_type := t; requester_id := requester; dest_id := dest;
     completer_id := mkPcieId 0 0 0; address := addr; status := SC; payload := [] |}.

Definition bridge_5_10 : Bridge :=
  set_sub_bus_num 10 (set_sec_bus_num 5 (Bridge_init (function_at (mkPcieId 4 0 0)))).

Definition bridge_with_errors : Bridge :=
  set_master_data_parity_error true
    (set_signaled_target_abort true
       (set_received_target_abort true
          (set_received_master_abort true
             (set_received_system_error true
                (set_detected_parity_error true bridge_5_10))))).

Definition bridge_with_bar : Bridge :=
  set_fn (set_bar_mask [0xfffff000; 0] (fn bridge_5_10)) bridge_5_10.

Definition host_bridge : SwitchUpstreamPort :=
  let s := HostBridge_init (function_at (mkPcieId 0 0 0)) in
  {| bridge := set_upstream_tx_handler (Some (external_handler 0))
                 (set_root true (bridge s));
     downstream_port_other := [] |}.

Definition mem_read_from_bus_3 : Tlp :=
  packet MEM_READ (mkPcieId 3 0 0) (mkPcieId 0 0 0) 0x80000000.
Definition msg_to_bus_4 : Tlp :=
  packet MSG_ID (mkPcieId 0 0 0) (mkPcieId 4 0 0) 0.
Definition msg_from_bus_4 : Tlp :=
  packet MSG_ID (mkPcieId 4 0 0) (mkPcieId 9 0 0) 0.
Definition broadcast : Tlp :=
  packet MSG_BCAST (mkPcieId 0 0 0) (mkPcieId 0 0 0) 0.
Definition cfg_read_1_to_bus (b : Z) : Tlp :=
  packet CFG_READ_1 (mkPcieId 0 0 0) (mkPcieId b 0 0) 0.
Definition completion_for_root : Tlp :=
  packet CPL (mkPcieId 0 0 0) (mkPcieId 0 0 0) 0.
Definition gather : Tlp :=
  packet MSG_GATHER (mkPcieId 3 0 0) (mkPcieId 0 0 0) 0.

(** Collaborators for the concrete instances: every packet is valid, no BAR
    is programmed, the base register file ignores writes. *)
Definition check_passes (tlp : Tlp) : bool := true.
Definition no_bar (f : Function) (addr : Z) (io : bool) : bool := false.
Definition base_write_ignored (reg data mask : Z) (f : Function) : Function := f.

(** ** The register file as a masked update

    For the registers that the bridge keeps itself: the bits a write can
    change, and the bits a write of 1 clears. *)
Definition writable_bits (reg : Z) : Z :=
  if reg =? 6 then 0x00ffffff          (* the three bus numbers *)
  else if reg =? 7 then 0x0000f0f0     (* IO base and limit, bits 15:12 *)
  else if reg =? 8 then 0xfff0fff0     (* memory base and limit, bits 31:20 *)
  else if reg =? 9 then 0xfff0fff0     (* prefetchable base and limit *)
  else if reg =? 10 then 0xffffffff
  else if reg =? 11 then 0xffffffff
  else if reg =? 12 then 0xffffffff
  else if reg =? 15 then 0x004300ff    (* interrupt line, bridge control *)
  else 0.

Definition write_1_to_clear_bits (reg : Z) : Z :=
  if reg =? 7 then 0xf9000000 else 0.  (* secondary status *)

(** The value [v] of register [reg] after a write of [data] under the byte
    enables [mask]: enabled writable bits come from [data], enabled
    write-1-to-clear bits are cleared where [data] is 1, all others stay. *)
Definition masked_write (reg data mask v : Z) : Z :=
  let lanes := byte_lanes mask in
  let written := Z.land (writable_bits reg) lanes in
  let cleared := Z.land (Z.land data (write_1_to_clear_bits reg)) lanes in
  Z.lor (Z.land data written) (Z.land v (Z.lnot (Z.lor written cleared))).

(** The stored window registers have no bit outside their fields: the bases
    are aligned, the limits carry their granularity marker, the IO and memory
    windows fit in 32 bits and the prefetchable window in 64. *)
Definition windows_well_formed (self : Bridge) : Prop :=
  io_base self = Z.land (io_base self) 0xfffff000 /\
  io_limit self = Z.lor (Z.land (io_limit self) 0xfffff000) 0xfff /\
  mem_base self = Z.land (mem_base self) 0xfff00000 /\
  mem_limit self = Z.lor (Z.land (mem_limit self) 0xfff00000) 0xfffff /\
  prefetchable_mem_base self =
    Z.land (prefetchable_mem_base self) 0xfffffffffff00000 /\
  prefetchable_mem_limit self =
    Z.lor (Z.land (prefetchable_mem_limit self) 0xfffffffffff00000) 0xfffff.

(** The port whose parent is [dev] takes the packet: the body of the loop
    hands it over and returns. *)
Definition port_claims (dev : Device) (tlp : Tlp) : bool :=
  match route_to_port 0 dev tlp false with
  | (_, Ok Return) => true
  | _ => false
  end.

Definition is_other (t : TlpType) : bool :=
  match t with
  | OTHER _ => true
  | _ => false
  end.

(** ** More of the small fabric

    The switch with a memory window on each downstream port, and an
    endpoint as third neighbour. *)
Definition port_with_memory_window (id : PcieId) (sec sub base limit : Z) : Bridge :=
  set_mem_limit limit (set_mem_base base (downstream_port_at id sec sub)).

Definition switch_with_windows : SwitchUpstreamPort :=
  {| bridge := set_mem_limit 0x801fffff (set_mem_base 0x80000000 (bridge switch));
     downstream_port_other :=
       [Bridge_dev (port_with_memory_window (mkPcieId 2 0 0) 3 3 0x80000000 0x800fffff);
        Bridge_dev (port_with_memory_window (mkPcieId 2 1 0) 4 4 0x80100000 0x801fffff);
        Function_dev (function_at (mkPcieId 2 2 0))] |}.

Definition mem_write_to_bus_4 : Tlp :=
  packet MEM_WRITE (mkPcieId 3 0 0) (mkPcieId 0 0 0) 0x80100040.

Definition unknown_packet : Tlp :=
  packet (OTHER 0x7f) (mkPcieId 0 0 0) (mkPcieId 0 0 0) 0.


Definition base_read_zero (reg : Z) (f : Function) : Z := 0.

(** * Properties *)

(** ** Byte lanes and the masked update *)

Lemma testbit_0xff (n : Z) : 0 <= n -> Z.testbit 0xff n = (n <? 8).
Proof.
  intros Hn. change 0xff with (Z.ones 8). now rewrite Z.testbit_ones_nonneg by lia.
Qed.

Lemma div_8_succ (n : Z) : 8 <= n -> n / 8 = Z.succ ((n - 8) / 8).
Proof.
  intros Hn. replace n with (n - 8 + 1 * 8) at 1 by lia.
  rewrite Z.div_add by lia. lia.
Qed.

Lemma lanes_pos_spec (p : positive) :
  forall n, 0 <= n -> Z.testbit (lanes_pos p) n = Z.testbit (Zpos p) (n / 8).
Proof.
  induction p as [p IH | p IH | ]; intros n Hn; cbn [lanes_pos].
  - rewrite Z.lor_spec, testbit_0xff, Z.shiftl_spec by lia.
    destruct (Z.ltb_spec n 8) as [Hlt | Hge].
    + now rewrite Z.div_small by lia.
    + rewrite (div_8_succ n) by lia.
      rewrite IH by lia. cbn [orb].
      change (Zpos p~1) with (2 * Zpos p + 1).
      now rewrite Z.testbit_odd_succ by (apply Z.div_pos; lia).
  - rewrite Z.shiftl_spec by lia.
    destruct (Z.ltb_spec n 8) as [Hlt | Hge].
    + rewrite Z.div_small by lia. now rewrite Z.testbit_neg_r by lia.
    + rewrite (div_8_succ n) by lia.
      rewrite IH by lia.
      change (Zpos p~0) with (2 * Zpos p).
      now rewrite Z.testbit_even_succ by (apply Z.div_pos; lia).
  - rewrite testbit_0xff by lia.
    destruct (Z.ltb_spec n 8) as [Hlt | Hge].
    + now rewrite Z.div_small by lia.
    + rewrite (div_8_succ n) by lia.
      change 1 with (2 * 0 + 1).
      rewrite Z.testbit_odd_succ by (apply Z.div_pos; lia).
      now rewrite Z.testbit_0_l.
Qed.

Lemma byte_lanes_spec (mask n : Z) :
  0 <= n -> Z.testbit (byte_lanes mask) n = (0 <? mask) && Z.testbit mask (n / 8).
Proof.
  intros Hn. destruct mask as [ | p | p]; cbn [byte_lanes].
  - now rewrite Z.testbit_0_l.
  - now rewrite lanes_pos_spec.
  - now rewrite Z.testbit_0_l.
Qed.

Lemma byte_mask_update_spec (old mask new bitmask n : Z) :
  0 <= n ->
  Z.testbit (byte_mask_update old mask new bitmask) n =
  if Z.testbit (byte_lanes mask) n
  then Z.testbit new n && Z.testbit bitmask n
  else Z.testbit old n.
Proof.
  intros Hn. unfold byte_mask_update.
  rewrite Z.lor_spec, !Z.land_spec, Z.lnot_spec by lia.
  destruct (Z.testbit (byte_lanes mask) n), (Z.testbit old n), (Z.testbit new n), (Z.testbit bitmask n); reflexivity.
Qed.

(** Bytes that the mask does not select are preserved. *)
Lemma byte_mask_update_low (old mask new bitmask lanes bits : Z) :
  0 <= bits <= 8 * lanes ->
  (forall j, 0 <= j < lanes -> Z.testbit mask j = false) ->
  Z.land (byte_mask_update old mask new bitmask) (Z.ones bits) =
  Z.land old (Z.ones bits).
Proof.
  intros Hk Hmask. apply Z.bits_inj'. intros n Hn.
  rewrite !Z.land_spec, Z.testbit_ones_nonneg by lia.
  destruct (Z.ltb_spec n bits) as [Hlt | Hge]; [ | now rewrite !andb_false_r].
  rewrite byte_mask_update_spec, byte_lanes_spec by lia.
  rewrite Hmask, andb_false_r; [reflexivity | ].
  split; [apply Z.div_pos; lia | apply Z.div_lt_upper_bound; lia].
Qed.

Lemma land_lor_ones (x k : Z) : 0 <= k -> Z.land (Z.lor x (Z.ones k)) (Z.ones k) = Z.ones k.
Proof. intros Hk. Z.bitblast. Qed.

Lemma testbit_land_0xc_low (mask j : Z) :
  0 <= j < 2 -> Z.testbit (Z.land mask 0xc) j = false.
Proof.
  intros Hj. rewrite Z.land_spec.
  assert (j = 0 \/ j = 1) as [-> | ->] by lia; apply andb_false_r.
Qed.

Lemma truthy_land_bit (x k : Z) :
  0 <= k -> truthy (Z.land x (Z.shiftl 1 k)) = Z.testbit x k.
Proof.
  intros Hk. unfold truthy. rewrite Z.shiftl_1_l.
  destruct (Z.testbit x k) eqn:Hbit.
  - apply negb_true_iff, Z.eqb_neq. intros H0.
    apply (f_equal (fun z => Z.testbit z k)) in H0.
    rewrite Z.land_spec, Hbit, Z.pow2_bits_true, Z.testbit_0_l in H0 by lia.
    discriminate.
  - apply negb_false_iff, Z.eqb_eq. apply Z.bits_inj'. intros n Hn.
    rewrite Z.land_spec, Z.testbit_0_l, Z.pow2_bits_eqb by lia.
    destruct (Z.eqb_spec k n) as [-> | ]; [now rewrite Hbit | apply andb_false_r].
Qed.

(** ** The register file, register by register *)

Lemma write_config_register_4 data mask self :
  write_config_register 4 data mask self =
  try! self := update_bar 0 data mask self in
  Ok (set_fn (Function_write_config_register 4 data mask (fn self)) self).
Proof. reflexivity. Qed.

Lemma write_config_register_5 data mask self :
  write_config_register 5 data mask self = update_bar 1 data mask self.
Proof. reflexivity. Qed.

Lemma write_config_register_7 data mask self :
  write_config_register 7 data mask self =
  let self := if truthy (Z.land mask 0x1)
              then set_io_base
                     (byte_mask_update (io_base self) 0x2 (Z.shiftl data 8) 0xf000) self
              else self in
  let self := if truthy (Z.land mask 0x2)
              then set_io_limit
                     (Z.lor (byte_mask_update (io_limit self) 0x2 data 0xf000) 0xfff) self
              else self in
  Ok (if truthy (Z.land mask 0x8) then clear_secondary_status data self else self).
Proof. reflexivity. Qed.

Lemma write_config_register_8 data mask self :
  write_config_register 8 data mask self =
  Ok (set_mem_limit
        (Z.lor (byte_mask_update (mem_limit self) (Z.land mask 0xc) data 0xfff00000)
               0xfffff)
        (set_mem_base
           (byte_mask_update (mem_base self) (Z.shiftl (Z.land mask 0x3) 2)
                             (Z.shiftl data 16) 0xfff00000) self)).
Proof. reflexivity. Qed.

Lemma write_config_register_delegates reg data mask self :
  ~ In reg bridge_registers ->
  write_config_register reg data mask self =
  try! self := (if reg =? 4 then update_bar 0 data mask self else Ok self) in
  Ok (set_fn (Function_write_config_register reg data mask (fn self)) self).
Proof.
  intros Hreg.
  assert (forall k, In k bridge_registers -> (reg =? k) = false) as Hne.
  { intros k Hk. apply Z.eqb_neq. intros Heq. apply Hreg. now rewrite Heq. }
  unfold write_config_register.
  destruct (if reg =? 4 then update_bar 0 data mask self else Ok self) as [self1 | e];
    cbn [bindR]; [ | reflexivity].
  rewrite !Hne by (unfold bridge_registers; auto 12 using in_eq, in_cons).
  reflexivity.
Qed.

Lemma update_bar_frame i data mask self self' :
  update_bar i data mask self = Ok self' ->
  exists f, self' = set_fn f self.
Proof.
  unfold update_bar, bindR. intros H.
  destruct (index (bar (fn self)) i); [ | discriminate].
  destruct (index (bar_mask (fn self)) i); [ | discriminate].
  injection H as <-. eauto.
Qed.

Lemma clear_secondary_status_bits data self :
  Forall (fun '(k, field) =>
            field (clear_secondary_status data self) =
            field self && negb (Z.testbit data k))
         secondary_status_bits.
Proof.
  unfold secondary_status_bits, clear_secondary_status.
  rewrite !truthy_land_bit by lia.
  repeat constructor;
    destruct (Z.testbit data 24), (Z.testbit data 27), (Z.testbit data 28),
      (Z.testbit data 29), (Z.testbit data 30), (Z.testbit data 31);
    cbn; rewrite ?andb_true_r, ?andb_false_r; reflexivity.
Qed.

Lemma clear_secondary_status_limits data self :
  io_limit (clear_secondary_status data self) = io_limit self /\
  mem_limit (clear_secondary_status data self) = mem_limit self /\
  prefetchable_mem_limit (clear_secondary_status data self) =
  prefetchable_mem_limit self.
Proof.
  unfold clear_secondary_status.
  repeat match goal with
         | |- context [truthy ?c] => destruct (truthy c)
         end; repeat split.
Qed.

(** Case analysis on the register index of a successful write. *)
Ltac write_cases H Hreg :=
  match type of H with
  | write_config_register ?reg ?data ?mask ?self = Ok ?self' =>
      destruct (in_dec Z.eq_dec reg bridge_registers) as [Hreg | Hreg];
      [ cbn in Hreg;
        repeat (destruct Hreg as [Hreg | Hreg]; [subst reg | ]);
        [ .. | contradiction ];
        unfold write_config_register in H; cbn [Z.eqb Pos.eqb bindR] in H
      | rewrite write_config_register_delegates in H by exact Hreg;
        unfold bindR in H;
        let E := fresh "E" in
        destruct (reg =? 4);
        [ destruct (update_bar 0 data mask self) eqn:E; [ | discriminate H];
          apply update_bar_frame in E as [? ->]
        | ] ]
  end.

Ltac split_truthy :=
  repeat match goal with
         | |- context [truthy ?c] => destruct (truthy c)
         end.

Lemma land_lor_0xfff x : Z.land (Z.lor x 0xfff) 0xfff = 0xfff.
Proof. exact (land_lor_ones x 12 ltac:(lia)). Qed.

Lemma land_lor_0xfffff x : Z.land (Z.lor x 0xfffff) 0xfffff = 0xfffff.
Proof. exact (land_lor_ones x 20 ltac:(lia)). Qed.

Lemma write_config_register_limits reg data mask self self' :
  limits_forced self ->
  write_config_register reg data mask self = Ok self' ->
  limits_forced self'.
Proof.
  intros (Hio & Hmem & Hpref) H. unfold limits_forced.
  write_cases H Hreg.
  - (* 5 *) apply update_bar_frame in H as [f ->]. now cbn.
  - (* 6 *) injection H as <-. split_truthy; now cbn.
  - (* 7 *) injection H as <-.
    destruct (truthy (Z.land mask 8));
      [ match goal with
        | |- context [clear_secondary_status ?d ?s] =>
            destruct (clear_secondary_status_limits d s) as (-> & -> & ->)
        end | ];
      split_truthy; cbn -[Z.land Z.lor]; auto using land_lor_0xfff.
  - (* 8 *) injection H as <-. cbn -[Z.land Z.lor]. auto using land_lor_0xfffff.
  - (* 9 *) injection H as <-. cbn -[Z.land Z.lor]. auto using land_lor_0xfffff.
  - (* 10 *) injection H as <-. now cbn -[Z.land Z.lor].
  - (* 11 *) injection H as <-. cbn -[Z.land Z.lor]. repeat split; trivial.
    rewrite <- Hpref at 2.
    apply (byte_mask_update_low _ _ _ _ 4 20); [lia | ].
    intros j Hj. apply Z.shiftl_spec_low. lia.
  - (* 12 *) injection H as <-. cbn -[Z.land Z.lor]. repeat split; trivial.
    rewrite <- Hio at 2.
    apply (byte_mask_update_low _ _ _ _ 2 12); [lia | ].
    apply testbit_land_0xc_low.
  - (* 14 *) injection H as <-. now cbn.
  - (* 15 *) injection H as <-. split_truthy; now cbn.
  - (* 4, delegated *) injection H as <-. now cbn.
  - (* delegated *) injection H as <-. now cbn.
Qed.

Lemma write_config_register_status reg data mask self self' :
  write_config_register reg data mask self = Ok self' ->
  Forall (fun '(_, field) => field self' = true -> field self = true)
         secondary_status_bits.
Proof.
  intros H. unfold secondary_status_bits.
  write_cases H Hreg;
    try (apply update_bar_frame in H as [f ->]);
    try (injection H as <-);
    try solve [split_truthy; repeat constructor; cbn; auto].
  (* 7 *)
  destruct (truthy (Z.land mask 8)); [ | solve [split_truthy; repeat constructor; cbn; auto]].
  match goal with
  | |- context [clear_secondary_status ?d ?s] =>
      pose proof (clear_secondary_status_bits d s) as Hclr
  end.
  unfold secondary_status_bits in Hclr.
  repeat match goal with
         | Hc : Forall _ (_ :: _) |- _ =>
             let Hhd := fresh "Hhd" in
             apply Forall_cons_1 in Hc as [Hhd Hc]; cbn beta iota in Hhd
         end.
  repeat constructor; cbn beta iota;
    match goal with
    | Hhd : ?field _ = _ |- ?field _ = true -> _ =>
        rewrite Hhd; intros [Hset _]%andb_true_iff; revert Hset
    end;
    split_truthy; cbn; auto.
Qed.

(** ** The claims on the register file *)

(** C4. A write to register 7 with byte enable 3 clears each secondary
    status bit (master data parity error at bit 24, signaled target abort
    at 27, received target abort at 28, received master abort at 29, received
    system error at 30, detected parity error at 31) whose data bit is 1 and
    leaves it unchanged when the data bit is 0; and no write, to any register,
    sets a status bit that was clear. *)
Theorem secondary_status_write_1_to_clear :
  (forall data mask self,
      Z.testbit mask 3 = true ->
      exists self',
        write_config_register 7 data mask self = Ok self' /\
        Forall (fun '(k, field) => field self' = field self && negb (Z.testbit data k))
               secondary_status_bits) /\
  (forall reg data mask self self',
      write_config_register reg data mask self = Ok self' ->
      Forall (fun '(_, field) => field self' = true -> field self = true)
             secondary_status_bits).
Proof.
  split; [ | exact write_config_register_status].
  intros data mask self Hmask.
  rewrite write_config_register_7. cbv zeta.
  change 8 with (Z.shiftl 1 3). rewrite truthy_land_bit, Hmask by lia.
  eexists. split; [reflexivity | ].
  match goal with
  | |- context [clear_secondary_status ?d ?s] =>
      pose proof (clear_secondary_status_bits d s) as Hclr
  end.
  unfold secondary_status_bits in *.
  repeat match goal with
         | Hc : Forall _ (_ :: _) |- _ =>
             let Hhd := fresh "Hhd" in
             apply Forall_cons_1 in Hc as [Hhd Hc]; cbn beta iota in Hhd
         end.
  repeat constructor; cbn beta iota;
    match goal with
    | Hhd : ?field _ = _ |- ?field _ = _ => rewrite Hhd
    end;
    split_truthy; reflexivity.
Qed.

(** C5. After a write of [data] to register 8 with all four byte enables,
    register 8 reads back as [data] with the four reserved low-order bits of
    the base field and of the limit field forced to zero, and the stored
    memory limit has its low 20 bits all set. *)
Theorem memory_window_write_then_read (data : Z) (self : Bridge) :
  exists self',
    write_config_register 8 data 0xF self = Ok self' /\
    read_config_register 8 self' = Ok (Z.land data 0xfff0fff0) /\
    Z.land (mem_limit self') 0xfffff = 0xfffff.
Proof.
  rewrite write_config_register_8. eexists. split; [reflexivity | ].
  split; [ | apply land_lor_0xfffff].
  unfold read_config_register. cbn [Z.eqb Pos.eqb mem_base mem_limit set_mem_base set_mem_limit].
  f_equal. unfold byte_mask_update.
  change (byte_lanes (Z.shiftl (Z.land 15 3) 2)) with (Z.shiftl (Z.ones 16) 16).
  change (byte_lanes (Z.land 15 12)) with (Z.shiftl (Z.ones 16) 16).
  change 0xfff00000 with (Z.shiftl (Z.ones 12) 20).
  change 0xfffff with (Z.ones 20).
  change 0xfff0fff0 with (Z.lor (Z.shiftl (Z.ones 12) 20) (Z.shiftl (Z.ones 12) 4)).
  Z.bitblast.
Qed.

Lemma write_config_register_total reg data mask self :
  (reg = 4 \/ reg = 5 ->
   length (bar (fn self)) = 2%nat /\ length (bar_mask (fn self)) = 2%nat) ->
  exists self', write_config_register reg data mask self = Ok self'.
Proof.
  intros Hbar.
  assert (forall i, reg = 4 \/ reg = 5 -> (i < 2)%nat ->
                    exists self', update_bar i data mask self = Ok self') as Hupd.
  { intros i Hreg Hi. destruct (Hbar Hreg) as [Hl Hm]. unfold update_bar, index.
    destruct (lookup_lt_is_Some_2 (bar (fn self)) i) as [b ->]; [lia | ].
    destruct (lookup_lt_is_Some_2 (bar_mask (fn self)) i) as [m ->]; [lia | ].
    cbn. eauto. }
  destruct (in_dec Z.eq_dec reg bridge_registers) as [Hreg | Hreg].
  - cbn in Hreg.
    repeat (destruct Hreg as [Hreg | Hreg]; [subst reg | ]); [ .. | contradiction];
      unfold write_config_register; cbn [Z.eqb Pos.eqb bindR]; eauto.
  - rewrite write_config_register_delegates by exact Hreg.
    destruct (Z.eqb_spec reg 4) as [-> | Hne]; [ | cbn; eauto].
    destruct (Hupd 0%nat) as [self' ->]; [now left | lia | cbn; eauto].
Qed.

(** C8. The limit registers keep their granularity marker: it is there in
    the initial state of every class, every write that goes through
    preserves it, whatever the register index, the data and the byte enables,
    so it holds after every sequence of writes from the initial state; and a
    write goes through whenever the two BAR lists have their two items. *)
Theorem limit_registers_stay_forced :
  (forall f0,
      limits_forced (Bridge_init f0) /\
      limits_forced (bridge (SwitchUpstreamPort_init f0)) /\
      limits_forced (SwitchDownstreamPort_init f0) /\
      limits_forced (bridge (HostBridge_init f0)) /\
      limits_forced (RootPort_init f0)) /\
  (forall reg data mask self self',
      limits_forced self ->
      write_config_register reg data mask self = Ok self' ->
      limits_forced self') /\
  (forall ws f0 self',
      write_config_registers ws (Bridge_init f0) = Ok self' ->
      limits_forced self') /\
  (forall reg data mask self,
      (reg = 4 \/ reg = 5 ->
       length (bar (fn self)) = 2%nat /\ length (bar_mask (fn self)) = 2%nat) ->
      exists self', write_config_register reg data mask self = Ok self').
Proof.
  assert (forall f0, limits_forced (Bridge_init f0)) as Hinit
      by (intros f0; repeat split).
  split; [ | split; [ | split]].
  - intros f0. repeat split.
  - exact write_config_register_limits.
  - intros ws f0. generalize (Bridge_init f0) (Hinit f0).
    induction ws as [ | [[reg data] mask] ws IH]; intros self Hself self' H; cbn in H.
    + now injection H as <-.
    + unfold bindR in H.
      destruct (write_config_register reg data mask self) as [self1 | e] eqn:E;
        [ | discriminate].
      eapply IH; [ | exact H]. eapply write_config_register_limits; eauto.
  - exact write_config_register_total.
Qed.

(** C10. A write to register 4 updates BAR 0 by the masked byte-lane update
    with its decode mask and then hands the same index, data and byte enables
    to the register file of the base class, which sees the updated BAR; a
    write to register 5 updates BAR 1 and nothing else, whatever the base
    register file would do. *)
Theorem bar0_write_also_delegates (data mask : Z) (self : Bridge) (b0 m0 b1 m1 : Z) :
  bar (fn self) !! 0%nat = Some b0 ->
  bar_mask (fn self) !! 0%nat = Some m0 ->
  bar (fn self) !! 1%nat = Some b1 ->
  bar_mask (fn self) !! 1%nat = Some m1 ->
  write_config_register 4 data mask self =
    Ok (set_fn (Function_write_config_register 4 data mask
                  (set_bar (<[0%nat := byte_mask_update b0 mask data m0]> (bar (fn self)))
                           (fn self)))
               self) /\
  write_config_register 5 data mask self =
    Ok (set_fn (set_bar (<[1%nat := byte_mask_update b1 mask data m1]> (bar (fn self)))
                        (fn self))
               self).
Proof.
  intros Hb0 Hm0 Hb1 Hm1.
  rewrite write_config_register_4, write_config_register_5.
  unfold update_bar, index. rewrite Hb0, Hm0, Hb1, Hm1. split; reflexivity.
Qed.

(** ** Routing: the monad and the loop *)

Lemma bind_ret_l {A B : Type} (a : A) (k : A -> M B) : bind (ret a) k = k a.
Proof. unfold bind, ret. now destruct (k a). Qed.

Lemma assert_true {B : Type} (b : bool) (k : M B) :
  b = true -> (assert b ;; k) = k.
Proof. intros ->. apply bind_ret_l. Qed.

Lemma upstream_send_ok self tlp h :
  check tlp = true -> upstream_tx_handler self = Some h ->
  upstream_send self tlp = ([upstream_tx h tlp], Ok tt).
Proof. intros Hc Hh. unfold upstream_send. now rewrite assert_true, Hh. Qed.

Lemma downstream_send_ok self tlp h :
  check tlp = true -> downstream_tx_handler self = Some h ->
  downstream_send self tlp = ([downstream_tx h tlp], Ok tt).
Proof. intros Hc Hh. unfold downstream_send. now rewrite assert_true, Hh. Qed.

(** A packet that is not a broadcast leaves the body of the loop without a
    call and with the flag as it was, unless the method returns. *)
Lemma route_to_port_continue p dev tlp ok t ok' :
  is_broadcast (fmt_type tlp) = false ->
  route_to_port p dev tlp ok = (t, Ok (Continue ok')) ->
  t = [] /\ ok' = ok.
Proof.
  unfold route_to_port, forward. intros Hb H.
  destruct (fmt_type tlp); try discriminate Hb;
    repeat match type of H with
           | context [if ?c then _ else _] => destruct c
           end;
    cbn in H; now inversion H.
Qed.

Lemma for_each_port_continue other :
  forall p tlp ok t ok',
    is_broadcast (fmt_type tlp) = false ->
    for_each_port p other tlp ok = (t, Ok (Continue ok')) ->
    t = [] /\ ok' = ok.
Proof.
  induction other as [ | dev other IH]; intros p tlp ok t ok' Hb H; cbn in H.
  - now inversion H.
  - unfold bind in H.
    destruct (route_to_port p dev tlp ok) as [t1 [[ | ok1] | e]] eqn:E; cbn in H.
    + inversion H.
    + apply route_to_port_continue in E as [-> ->]; [ | exact Hb].
      destruct (for_each_port (S p) other tlp ok) as [t2 r2] eqn:E2.
      injection H as <- ->. now apply (IH _ _ _ _ _ Hb E2).
    + discriminate.
Qed.

(** A broadcast is handed to every port in turn. *)
Lemma for_each_port_broadcast other :
  forall p tlp ok,
    is_broadcast (fmt_type tlp) = true ->
    for_each_port p other tlp ok =
    (imap (fun i _ => ext_recv (p + i) tlp) other,
     Ok (Continue (match other with [] => ok | _ => true end))).
Proof.
  induction other as [ | dev other IH]; intros p tlp ok Hb; [reflexivity | ].
  cbn [for_each_port imap].
  assert (route_to_port p dev tlp ok = ([ext_recv p tlp], Ok (Continue true))) as ->
      by (unfold route_to_port; destruct (fmt_type tlp); now try discriminate Hb).
  unfold bind. rewrite (IH (S p) tlp true Hb).
  rewrite Nat.add_0_r. cbn [app]. f_equal.
  - f_equal. apply imap_ext. intros i dev' _. cbn. f_equal. lia.
  - now destruct other.
Qed.

(** The method from depth 1 on, when the packet did not come from
    downstream: the nested call is not reached. *)
Lemma route_from_upstream_depth d d' self tlp :
  SwitchUpstreamPort_route_downstream_tlp (S d) self tlp false =
  SwitchUpstreamPort_route_downstream_tlp (S d') self tlp false.
Proof. reflexivity. Qed.

(** What the method does once the loop has completed with the flag clear. *)
Lemma route_not_ok d self tlp from_downstream :
  check tlp = true ->
  for_each_port 0 (downstream_port_other self) tlp false = ([], Ok (Continue false)) ->
  SwitchUpstreamPort_route_downstream_tlp (S d) self tlp from_downstream =
  let cpl := create_ur_completion_for_tlp tlp (completer (bridge self)) in
  if from_downstream
  then SwitchUpstreamPort_route_downstream_tlp d self cpl false
  else upstream_send (bridge self) cpl.
Proof.
  intros Hc Hloop. cbn [SwitchUpstreamPort_route_downstream_tlp].
  rewrite assert_true, Hloop by exact Hc.
  change ([], Ok (Continue false)) with (@ret Flow (Continue false)).
  now rewrite bind_ret_l.
Qed.

Lemma route_ok d self tlp from_downstream t :
  check tlp = true ->
  for_each_port 0 (downstream_port_other self) tlp false = (t, Ok (Continue true)) ->
  SwitchUpstreamPort_route_downstream_tlp (S d) self tlp from_downstream = (t, Ok tt).
Proof.
  intros Hc Hloop. cbn [SwitchUpstreamPort_route_downstream_tlp].
  rewrite assert_true, Hloop by exact Hc. cbn. now rewrite app_nil_r.
Qed.

(** ** The claims on routing *)

Lemma route_downstream_tlp_switch self tlp from_downstream :
  route_downstream_tlp (SwitchUpstreamPort_node self) tlp from_downstream =
  SwitchUpstreamPort_route_downstream_tlp (S (S 998)) self tlp from_downstream.
Proof. reflexivity. Qed.

(** C1, amended.  When the loop over the downstream ports completes for a
    packet that is not a broadcast, no port has received anything and one
    Unsupported-Request completion is synthesized, addressed to the
    requester of the packet, with the bus and device number of this port and
    function 0 as completer.  If the packet did not arrive from downstream
    the completion is sent upstream; if it arrived from downstream the
    completion is routed downstream, by this same method, as a packet that
    did not arrive from downstream. *)
Theorem unroutable_packet_answered_by_ur_completion
    (self : SwitchUpstreamPort) (tlp : Tlp) (t : list Event) (ok : bool) :
  is_broadcast (fmt_type tlp) = false ->
  check tlp = true ->
  for_each_port 0 (downstream_port_other self) tlp false = (t, Ok (Continue ok)) ->
  let node := SwitchUpstreamPort_node self in
  let cpl := create_ur_completion_for_tlp tlp
               (mkPcieId (bus_num (fn (bridge self))) (device_num (fn (bridge self))) 0) in
  t = [] /\
  status cpl = UR /\
  requester_id cpl = requester_id tlp /\
  route_downstream_tlp node tlp false = upstream_send (bridge self) cpl /\
  (forall h, upstream_tx_handler (bridge self) = Some h -> check cpl = true ->
             route_downstream_tlp node tlp false = ([upstream_tx h cpl], Ok tt)) /\
  route_downstream_tlp node tlp true = route_downstream_tlp node cpl false.
Proof.
  intros Hb Hc Hloop node cpl.
  destruct (for_each_port_continue _ _ _ _ _ _ Hb Hloop) as [-> ->].
  assert (route_downstream_tlp node tlp false = upstream_send (bridge self) cpl) as Hup.
  { unfold node. now rewrite route_downstream_tlp_switch, (route_not_ok _ _ _ _ Hc Hloop). }
  repeat split; trivial.
  - intros h Hh Hcpl. rewrite Hup. now apply upstream_send_ok.
  - unfold node. now rewrite !route_downstream_tlp_switch, (route_not_ok _ _ _ _ Hc Hloop).
Qed.

(** C3, amended.  A broadcast routed by a switch upstream port that has at
    least one downstream port is handed to every port exactly once, in the
    order of [downstream_port.other], and nothing else happens: no completion
    is synthesized. *)
Theorem broadcast_reaches_every_port
    (self : SwitchUpstreamPort) (tlp : Tlp) (from_downstream : bool) :
  is_broadcast (fmt_type tlp) = true ->
  check tlp = true ->
  downstream_port_other self <> [] ->
  route_downstream_tlp (SwitchUpstreamPort_node self) tlp from_downstream =
  (imap (fun p _ => ext_recv p tlp) (downstream_port_other self), Ok tt).
Proof.
  intros Hb Hc Hports. rewrite route_downstream_tlp_switch.
  apply route_ok; [exact Hc | ].
  rewrite for_each_port_broadcast by exact Hb.
  destruct (downstream_port_other self); [contradiction | reflexivity].
Qed.

(** C6. A type 1 configuration request that arrives from upstream is
    forwarded downstream when the bus of its destination lies in
    [sec_bus_num, sub_bus_num], changed to the corresponding type 0 request
    exactly when that bus is the secondary bus, and is dropped otherwise: no
    call is made and the method returns.  For a plain bridge, forwarding
    downstream is one call of the downstream transmit handler. *)
Theorem type_1_config_request_from_upstream (node : Node) (tlp : Tlp) (t0 : TlpType) :
  (fmt_type tlp = CFG_READ_1 /\ t0 = CFG_READ_0) \/
  (fmt_type tlp = CFG_WRITE_1 /\ t0 = CFG_WRITE_0) ->
  check tlp = true ->
  let self := node_bridge node in
  let b := bus (dest_id tlp) in
  (sec_bus_num self <= b <= sub_bus_num self -> b = sec_bus_num self ->
   upstream_recv node tlp = route_downstream_tlp node (set_fmt_type t0 tlp) false) /\
  (sec_bus_num self <= b <= sub_bus_num self -> b <> sec_bus_num self ->
   upstream_recv node tlp = route_downstream_tlp node tlp false) /\
  (~ sec_bus_num self <= b <= sub_bus_num self ->
   upstream_recv node tlp = ([], Ok tt)) /\
  (forall tlp' h, node = Bridge_node self -> downstream_tx_handler self = Some h ->
                  check tlp' = true ->
                  route_downstream_tlp node tlp' false = ([downstream_tx h tlp'], Ok tt)).
Proof.
  intros Ht Hc self b.
  assert (upstream_recv node tlp =
          if between (sec_bus_num self) b (sub_bus_num self)
          then route_downstream_tlp node
                 (if b =? sec_bus_num self then set_fmt_type t0 tlp else tlp) false
          else ret tt) as Hrecv.
  { unfold upstream_recv. rewrite assert_true by exact Hc. fold self. fold b.
    unfold change_to_type_0.
    destruct Ht as [[-> ->] | [-> ->]]; reflexivity. }
  unfold between in Hrecv.
  repeat split.
  - intros [Hlo Hhi] Heq. rewrite Hrecv.
    rewrite (proj2 (Z.leb_le _ _) Hlo), (proj2 (Z.leb_le _ _) Hhi).
    now rewrite (proj2 (Z.eqb_eq _ _) Heq).
  - intros [Hlo Hhi] Hne. rewrite Hrecv.
    rewrite (proj2 (Z.leb_le _ _) Hlo), (proj2 (Z.leb_le _ _) Hhi).
    now rewrite (proj2 (Z.eqb_neq _ _) Hne).
  - intros Hout. rewrite Hrecv.
    destruct (Z.leb_spec (sec_bus_num self) b), (Z.leb_spec b (sub_bus_num self));
      try reflexivity.
    exfalso. apply Hout. lia.
  - intros tlp' h Hnode Hh Hc'. rewrite Hnode. now apply downstream_send_ok.
Qed.

(** C7. At a root node, a completion whose requester, or an ID-routed
    message whose destination, is on the primary bus with device number 0 and
    which arrives from downstream is passed to [upstream_send], and so to the
    upstream transmit handler; it is not routed downstream. *)
Theorem root_forwards_own_bus_upstream (node : Node) (tlp : Tlp) (id : PcieId) :
  root (node_bridge node) = true ->
  (In (fmt_type tlp) [CPL; CPL_DATA; CPL_LOCKED; CPL_LOCKED_DATA] /\
   id = requester_id tlp) \/
  (In (fmt_type tlp) [MSG_ID; MSG_DATA_ID] /\ id = dest_id tlp) ->
  bus id = pri_bus_num (node_bridge node) ->
  device id = 0 ->
  check tlp = true ->
  downstream_recv node tlp = upstream_send (node_bridge node) tlp /\
  (forall h, upstream_tx_handler (node_bridge node) = Some h ->
             downstream_recv node tlp = ([upstream_tx h tlp], Ok tt)).
Proof.
  intros Hroot Hkind Hbus Hdev Hc.
  assert (downstream_recv node tlp = upstream_send (node_bridge node) tlp) as Hrecv.
  { unfold downstream_recv. rewrite assert_true by exact Hc.
    destruct Hkind as [[Hin ->] | [Hin ->]]; cbn in Hin;
      repeat (destruct Hin as [Hin | Hin]; [rewrite <- Hin | ]); try contradiction;
      rewrite Hroot, Hbus, Hdev, Z.eqb_refl; cbn [negb andb Z.eqb];
      now destruct (between _ _ _). }
  split; [exact Hrecv | ].
  intros h Hh. rewrite Hrecv. now apply upstream_send_ok.
Qed.

(** C9. A gather message that arrives from downstream ends the traversal:
    the method raises its exception before any call is made. *)
Theorem gather_from_downstream_raises (node : Node) (tlp : Tlp) :
  In (fmt_type tlp) [MSG_GATHER; MSG_DATA_GATHER] ->
  check tlp = true ->
  downstream_recv node tlp = ([], Raise (Exception "TODO")) /\
  send node tlp = ([], Raise (Exception "TODO")).
Proof.
  intros Hin Hc. unfold send, downstream_recv. rewrite assert_true by exact Hc.
  cbn in Hin. destruct Hin as [<- | [<- | []]]; split; reflexivity.
Qed.


(** ** Byte lanes, bit by bit *)

Lemma testbit_byte_lanes (mask n k : Z) :
  0 <= mask -> 8 * k <= n < 8 * k + 8 -> 0 <= k ->
  Z.testbit (byte_lanes mask) n = Z.testbit mask k.
Proof.
  intros Hm Hn Hk. rewrite byte_lanes_spec by lia.
  replace (n / 8) with k by (apply (Z.div_unique n 8 k (n - 8 * k)); lia).
  destruct (Z.ltb_spec 0 mask) as [ | Hle]; [reflexivity | ].
  replace mask with 0 by lia. now rewrite Z.testbit_0_l.
Qed.

Lemma testbit_byte_lanes_high (mask n : Z) :
  0 <= mask -> 0 <= n -> Z.testbit (byte_lanes mask) n = Z.testbit mask (n / 8).
Proof.
  intros Hm Hn. apply testbit_byte_lanes; [exact Hm | | apply Z.div_pos; lia].
  pose proof (Z.div_mod n 8 ltac:(lia)). pose proof (Z.mod_pos_bound n 8 ltac:(lia)). lia.
Qed.

Lemma lanes_mask_nonneg_shift (mask a s : Z) : 0 <= a -> 0 <= Z.shiftl (Z.land mask a) s.
Proof. intros Ha. apply Z.shiftl_nonneg, Z.land_nonneg. now right. Qed.

Lemma lanes_shiftl_nonneg (mask s : Z) : 0 <= mask -> 0 <= Z.shiftl mask s.
Proof. intros Hm. now apply Z.shiftl_nonneg. Qed.

Lemma lanes_mask_nonneg (mask a : Z) : 0 <= a -> 0 <= Z.land mask a.
Proof. intros Ha. apply Z.land_nonneg. now right. Qed.

(** Closed subterms under [Z.testbit] are evaluated. *)
Ltac no_var t :=
  match t with
  | context [?v] => is_var v; fail 1
  | _ => idtac
  end.

Ltac fold_testbit :=
  repeat match goal with
         | |- context [Z.testbit ?x ?k] =>
             lazymatch k with
             | Z0 => fail | Zpos _ => fail | Zneg _ => fail
             | _ => no_var k;
                    let k' := eval vm_compute in k in change k with k'
             end
         end;
  repeat match goal with
         | |- context [Z.testbit ?x ?k] =>
             no_var x; no_var k;
             let b := eval vm_compute in (Z.testbit x k) in
             change (Z.testbit x k) with b
         end.

(** The byte lane of bit [i], for the five regions of a 32-bit register. *)
Ltac lanes_at i :=
  repeat match goal with
         | |- context [Z.testbit (byte_lanes ?m) ?j] =>
             first
               [ rewrite (testbit_byte_lanes m j 0)
                   by (auto using lanes_mask_nonneg_shift, lanes_mask_nonneg, lanes_shiftl_nonneg
                         with zarith; lia)
               | rewrite (testbit_byte_lanes m j 1)
                   by (auto using lanes_mask_nonneg_shift, lanes_mask_nonneg, lanes_shiftl_nonneg
                         with zarith; lia)
               | rewrite (testbit_byte_lanes m j 2)
                   by (auto using lanes_mask_nonneg_shift, lanes_mask_nonneg, lanes_shiftl_nonneg
                         with zarith; lia)
               | rewrite (testbit_byte_lanes m j 3)
                   by (auto using lanes_mask_nonneg_shift, lanes_mask_nonneg, lanes_shiftl_nonneg
                         with zarith; lia)
               | rewrite (testbit_byte_lanes m j 4)
                   by (auto using lanes_mask_nonneg_shift, lanes_mask_nonneg, lanes_shiftl_nonneg
                         with zarith; lia)
               | rewrite (testbit_byte_lanes m j 5)
                   by (auto using lanes_mask_nonneg_shift, lanes_mask_nonneg, lanes_shiftl_nonneg
                         with zarith; lia)
               | rewrite (testbit_byte_lanes m j 6)
                   by (auto using lanes_mask_nonneg_shift, lanes_mask_nonneg, lanes_shiftl_nonneg
                         with zarith; lia)
               | rewrite (testbit_byte_lanes m j 7)
                   by (auto using lanes_mask_nonneg_shift, lanes_mask_nonneg, lanes_shiftl_nonneg
                         with zarith; lia)
               | rewrite (testbit_byte_lanes_high m j)
                   by (auto using lanes_mask_nonneg_shift, lanes_mask_nonneg, lanes_shiftl_nonneg
                         with zarith; lia) ]
         end.

(** One bit of both sides of a register equation, in each byte lane. *)
Ltac bit_regions i :=
  assert (i < 8 \/ 8 <= i < 16 \/ 16 <= i < 24 \/ 24 <= i < 32 \/ 32 <= i)
    as [? | [? | [? | [? | ?]]]] by lia.

Ltac bits_of i :=
  repeat first [ rewrite byte_mask_update_spec by lia
               | progress lanes_at i
               | progress Z.rewrite_bitwise ];
  fold_testbit.

Ltac decide_ltbs :=
  repeat match goal with
         | |- context [?a <? ?b] =>
             first [ rewrite (proj2 (Z.ltb_lt a b)) by lia
                   | rewrite (proj2 (Z.ltb_ge a b)) by lia
                   | destruct (Z.ltb_spec a b) ]
         end.

Ltac decide_eqbs :=
  repeat match goal with
         | |- context [?a =? ?b] =>
             first [ rewrite (proj2 (Z.eqb_neq a b)) by lia
                   | rewrite (proj2 (Z.eqb_eq a b)) by lia
                   | destruct (Z.eqb_spec a b) ]
         end.

Ltac bits_core :=
  decide_ltbs; decide_eqbs;
  Z.discover_equal_testbit_indices;
  try (exfalso; lia);
  try btauto.

Ltac register_bits :=
  let i := fresh "i" in
  let Hi := fresh "Hi" in
  apply Z.bits_inj'; intros i Hi; bit_regions i; bits_of i; bits_core.

Ltac mask_constants :=
  change 0xfff00000 with (Z.shiftl (Z.ones 12) 20);
  change 0xfffff with (Z.ones 20);
  change 0xfff0fff0 with (Z.lor (Z.shiftl (Z.ones 12) 20) (Z.shiftl (Z.ones 12) 4));
  change 0xffffffff with (Z.ones 32);
  change 0xffff0000 with (Z.shiftl (Z.ones 16) 16);
  change 0x00ffffff with (Z.ones 24);
  change 0xf000 with (Z.shiftl (Z.ones 4) 12);
  change 0xfff with (Z.ones 12);
  change 0xff with (Z.ones 8);
  change 0xf0f0 with (Z.lor (Z.shiftl (Z.ones 4) 12) (Z.shiftl (Z.ones 4) 4));
  change 0xf9000000 with (Z.lor (Z.shiftl (Z.ones 5) 27) (Z.shiftl (Z.ones 1) 24));
  change 0x004300ff
    with (Z.lor (Z.ones 8) (Z.lor (Z.shiftl (Z.ones 2) 16) (Z.shiftl (Z.ones 1) 22))).

Lemma masked_write_8 data mask self :
  0 <= mask ->
  exists v self',
    read_config_register 8 self = Ok v /\
    write_config_register 8 data mask self = Ok self' /\
    read_config_register 8 self' = Ok (masked_write 8 data mask v).
Proof.
  intros Hmask. eexists. eexists. split; [reflexivity | split; [reflexivity | ]].
  unfold read_config_register, masked_write.
  cbn [Z.eqb Pos.eqb mem_base mem_limit set_mem_base set_mem_limit
         writable_bits write_1_to_clear_bits].
  f_equal. mask_constants. register_bits.
Qed.

Lemma masked_write_9 data mask self :
  0 <= mask ->
  exists v self',
    read_config_register 9 self = Ok v /\
    write_config_register 9 data mask self = Ok self' /\
    read_config_register 9 self' = Ok (masked_write 9 data mask v).
Proof.
  intros Hmask. eexists. eexists. split; [reflexivity | split; [reflexivity | ]].
  unfold read_config_register, masked_write.
  cbn [Z.eqb Pos.eqb prefetchable_mem_base prefetchable_mem_limit
         set_prefetchable_mem_base set_prefetchable_mem_limit
         writable_bits write_1_to_clear_bits].
  f_equal. mask_constants. register_bits.
Qed.

Lemma masked_write_10 data mask self :
  0 <= mask ->
  exists v self',
    read_config_register 10 self = Ok v /\
    write_config_register 10 data mask self = Ok self' /\
    read_config_register 10 self' = Ok (masked_write 10 data mask v).
Proof.
  intros Hmask. eexists. eexists. split; [reflexivity | split; [reflexivity | ]].
  unfold read_config_register, masked_write.
  cbn [Z.eqb Pos.eqb prefetchable_mem_base prefetchable_mem_limit
         set_prefetchable_mem_base set_prefetchable_mem_limit
         writable_bits write_1_to_clear_bits].
  f_equal. mask_constants. register_bits.
Qed.

Lemma masked_write_11 data mask self :
  0 <= mask ->
  exists v self',
    read_config_register 11 self = Ok v /\
    write_config_register 11 data mask self = Ok self' /\
    read_config_register 11 self' = Ok (masked_write 11 data mask v).
Proof.
  intros Hmask. eexists. eexists. split; [reflexivity | split; [reflexivity | ]].
  unfold read_config_register, masked_write.
  cbn [Z.eqb Pos.eqb prefetchable_mem_base prefetchable_mem_limit
         set_prefetchable_mem_base set_prefetchable_mem_limit
         writable_bits write_1_to_clear_bits].
  f_equal. mask_constants. register_bits.
Qed.

Lemma masked_write_12 data mask self :
  0 <= mask ->
  exists v self',
    read_config_register 12 self = Ok v /\
    write_config_register 12 data mask self = Ok self' /\
    read_config_register 12 self' = Ok (masked_write 12 data mask v).
Proof.
  intros Hmask. eexists. eexists. split; [reflexivity | split; [reflexivity | ]].
  unfold read_config_register, masked_write.
  cbn [Z.eqb Pos.eqb io_base io_limit set_io_base set_io_limit
         writable_bits write_1_to_clear_bits].
  f_equal. mask_constants. register_bits.
Qed.

Lemma testbit_b2z (b : bool) (n : Z) : Z.testbit (Z.b2z b) n = b && (n =? 0).
Proof. destruct b, n; reflexivity. Qed.

Ltac use_mask_bits :=
  repeat match goal with
         | H : Z.testbit _ _ = _ |- _ => rewrite H
         end.

Ltac register_bits_cases :=
  let i := fresh "i" in
  let Hi := fresh "Hi" in
  apply Z.bits_inj'; intros i Hi; bit_regions i; bits_of i;
  rewrite ?testbit_b2z; use_mask_bits; bits_core.

Lemma truthy_land_1 mask : truthy (Z.land mask 1) = Z.testbit mask 0.
Proof. exact (truthy_land_bit mask 0 ltac:(lia)). Qed.
Lemma truthy_land_2 mask : truthy (Z.land mask 2) = Z.testbit mask 1.
Proof. exact (truthy_land_bit mask 1 ltac:(lia)). Qed.
Lemma truthy_land_4 mask : truthy (Z.land mask 4) = Z.testbit mask 2.
Proof. exact (truthy_land_bit mask 2 ltac:(lia)). Qed.
Lemma truthy_land_8 mask : truthy (Z.land mask 8) = Z.testbit mask 3.
Proof. exact (truthy_land_bit mask 3 ltac:(lia)). Qed.

Lemma masked_write_6 data mask self :
  0 <= mask ->
  exists v self',
    read_config_register 6 self = Ok v /\
    write_config_register 6 data mask self = Ok self' /\
    read_config_register 6 self' = Ok (masked_write 6 data mask v).
Proof.
  intros Hmask. eexists. eexists. split; [reflexivity | split; [reflexivity | ]].
  rewrite truthy_land_1, truthy_land_2, truthy_land_4.
  unfold masked_write. cbn [Z.eqb Pos.eqb writable_bits write_1_to_clear_bits].
  destruct (Z.testbit mask 0) eqn:H0, (Z.testbit mask 1) eqn:H1,
    (Z.testbit mask 2) eqn:H2;
    unfold read_config_register;
    cbn [Z.eqb Pos.eqb pri_bus_num sec_bus_num sub_bus_num sec_lat_timer
           set_pri_bus_num set_sec_bus_num set_sub_bus_num];
    f_equal; mask_constants; register_bits_cases.
Qed.

Lemma masked_write_15 data mask self :
  0 <= mask ->
  exists v self',
    read_config_register 15 self = Ok v /\
    write_config_register 15 data mask self = Ok self' /\
    read_config_register 15 self' = Ok (masked_write 15 data mask v).
Proof.
  intros Hmask. eexists. eexists. split; [reflexivity | split; [reflexivity | ]].
  rewrite truthy_land_1, truthy_land_4.
  repeat match goal with
         | |- context [negb (Z.land data (Z.shiftl 1 ?k) =? 0)] =>
             change (negb (Z.land data (Z.shiftl 1 k) =? 0))
               with (truthy (Z.land data (Z.shiftl 1 k)));
             rewrite (truthy_land_bit data k) by lia
         end.
  unfold masked_write. cbn [Z.eqb Pos.eqb writable_bits write_1_to_clear_bits].
  destruct (Z.testbit mask 0) eqn:H0, (Z.testbit mask 2) eqn:H2;
    unfold read_config_register;
    cbn [Z.eqb Pos.eqb fn set_fn interrupt_line interrupt_pin set_interrupt_line
           parity_error_response_enable serr_enable secondary_bus_reset
           set_parity_error_response_enable set_serr_enable set_secondary_bus_reset];
    f_equal; mask_constants; register_bits_cases.
Qed.

Lemma clear_secondary_status_io data self :
  io_base (clear_secondary_status data self) = io_base self /\
  io_limit (clear_secondary_status data self) = io_limit self /\
  io_addr_capability (clear_secondary_status data self) = io_addr_capability self.
Proof.
  unfold clear_secondary_status. split_truthy; repeat split.
Qed.

Lemma clear_secondary_status_each data self :
  master_data_parity_error (clear_secondary_status data self) =
    master_data_parity_error self && negb (Z.testbit data 24) /\
  signaled_target_abort (clear_secondary_status data self) =
    signaled_target_abort self && negb (Z.testbit data 27) /\
  received_target_abort (clear_secondary_status data self) =
    received_target_abort self && negb (Z.testbit data 28) /\
  received_master_abort (clear_secondary_status data self) =
    received_master_abort self && negb (Z.testbit data 29) /\
  received_system_error (clear_secondary_status data self) =
    received_system_error self && negb (Z.testbit data 30) /\
  detected_parity_error (clear_secondary_status data self) =
    detected_parity_error self && negb (Z.testbit data 31).
Proof.
  pose proof (clear_secondary_status_bits data self) as H.
  unfold secondary_status_bits in H.
  repeat match goal with
         | Hc : Forall _ (_ :: _) |- _ =>
             let Hhd := fresh "Hhd" in
             apply Forall_cons_1 in Hc as [Hhd Hc]; cbn beta iota in Hhd
         end.
  repeat split; assumption.
Qed.

Lemma masked_write_7 data mask self :
  0 <= mask ->
  exists v self',
    read_config_register 7 self = Ok v /\
    write_config_register 7 data mask self = Ok self' /\
    read_config_register 7 self' = Ok (masked_write 7 data mask v).
Proof.
  intros Hmask. eexists. eexists.
  split; [reflexivity | split; [apply write_config_register_7 | ]].
  cbv zeta. rewrite truthy_land_1, truthy_land_2, truthy_land_8.
  unfold masked_write. cbn [Z.eqb Pos.eqb writable_bits write_1_to_clear_bits].
  destruct (Z.testbit mask 3) eqn:H3;
    [ unfold read_config_register; cbn [Z.eqb Pos.eqb];
      match goal with
      | |- context [clear_secondary_status ?d ?s] =>
          destruct (clear_secondary_status_io d s) as (-> & -> & ->);
          destruct (clear_secondary_status_each d s) as (-> & -> & -> & -> & -> & ->)
      end
    | unfold read_config_register; cbn [Z.eqb Pos.eqb] ];
    destruct (Z.testbit mask 0) eqn:H0, (Z.testbit mask 1) eqn:H1;
    cbn [io_base io_limit io_addr_capability set_io_base set_io_limit
           master_data_parity_error signaled_target_abort received_target_abort
           received_master_abort received_system_error detected_parity_error];
    f_equal; mask_constants; change 0xf with (Z.ones 4);
    register_bits_cases.
Qed.

(** ** The register file as a whole *)

(** X1. For the registers the bridge keeps itself (6 to 12 and 15), a write
    is a masked update of the value the register reads as: under the byte
    enables, the writable bits take the data, the write-1-to-clear bits are
    cleared where the data is 1, every other bit reads as before. *)
Theorem register_write_is_masked_update (reg data mask : Z) (self : Bridge) :
  In reg [6; 7; 8; 9; 10; 11; 12; 15] ->
  0 <= mask ->
  exists v self',
    read_config_register reg self = Ok v /\
    write_config_register reg data mask self = Ok self' /\
    read_config_register reg self' = Ok (masked_write reg data mask v).
Proof.
  intros Hreg Hmask. cbn in Hreg.
  repeat (destruct Hreg as [Hreg | Hreg]; [subst reg | ]); [ .. | contradiction].
  - now apply masked_write_6.
  - now apply masked_write_7.
  - now apply masked_write_8.
  - now apply masked_write_9.
  - now apply masked_write_10.
  - now apply masked_write_11.
  - now apply masked_write_12.
  - now apply masked_write_15.
Qed.

Lemma land_ones_32_bound (v : Z) : Z.land v (Z.ones 32) = v -> 0 <= v < 2 ^ 32.
Proof.
  intros H. rewrite <- H, Z.land_ones by lia. apply Z.mod_pos_bound. lia.
Qed.

(** X2. Registers 6 to 12, 14 and 15 read as 32-bit values, whatever the
    attributes hold. *)
Theorem bridge_register_reads_32_bits (reg : Z) (self : Bridge) (v : Z) :
  In reg [6; 7; 8; 9; 10; 11; 12; 14; 15] ->
  read_config_register reg self = Ok v ->
  0 <= v < 2 ^ 32.
Proof.
  intros Hreg Hread. apply land_ones_32_bound. cbn in Hreg.
  repeat (destruct Hreg as [Hreg | Hreg]; [subst reg | ]); [ .. | contradiction];
    unfold read_config_register in Hread; cbn [Z.eqb Pos.eqb] in Hread;
    injection Hread as <-; mask_constants;
    change 0xf with (Z.ones 4); change 0xfffff800 with (Z.shiftl (Z.ones 21) 11);
    (apply Z.bits_inj'; intros i Hi; bit_regions i; bits_of i;
                   rewrite ?testbit_b2z; bits_core).
Qed.

Lemma mask_bit_high (mask k : Z) : 0 <= mask < 16 -> 4 <= k -> Z.testbit mask k = false.
Proof.
  intros Hm Hk. destruct (Z.eq_dec mask 0) as [-> | Hne]; [apply Z.testbit_0_l | ].
  apply Z.bits_above_log2; [lia | ].
  assert (Z.log2 mask < 4) by (apply Z.log2_lt_pow2; lia). lia.
Qed.

Lemma upper_lanes_high (mask i : Z) :
  0 <= mask < 16 -> 64 <= i -> Z.testbit (byte_lanes (Z.shiftl mask 4)) i = false.
Proof.
  intros Hm Hi.
  rewrite testbit_byte_lanes_high by (try apply lanes_shiftl_nonneg; lia).
  assert (8 <= i / 8) by (apply Z.div_le_lower_bound; lia).
  rewrite Z.shiftl_spec by lia. apply mask_bit_high; lia.
Qed.

Lemma base_lanes_high (mask i : Z) :
  32 <= i -> Z.testbit (byte_lanes (Z.shiftl (Z.land mask 3) 2)) i = false.
Proof.
  intros Hi.
  rewrite testbit_byte_lanes_high by (try apply lanes_mask_nonneg_shift; lia).
  assert (4 <= i / 8) by (apply Z.div_le_lower_bound; lia).
  rewrite Z.shiftl_spec, Z.land_spec by lia.
  rewrite (Z.bits_above_log2 3) by (cbn; lia). apply andb_false_r.
Qed.

Lemma limit_lanes_high (mask i : Z) :
  32 <= i -> Z.testbit (byte_lanes (Z.land mask 12)) i = false.
Proof.
  intros Hi.
  rewrite testbit_byte_lanes_high by (try apply lanes_mask_nonneg; lia).
  assert (4 <= i / 8) by (apply Z.div_le_lower_bound; lia).
  rewrite Z.land_spec.
  rewrite (Z.bits_above_log2 12) by (cbn; lia). apply andb_false_r.
Qed.

Ltac bit_regions_64 i :=
  assert (i < 8 \/ 8 <= i < 16 \/ 16 <= i < 24 \/ 24 <= i < 32 \/
          32 <= i < 40 \/ 40 <= i < 48 \/ 48 <= i < 56 \/ 56 <= i < 64 \/ 64 <= i)
    as [? | [? | [? | [? | [? | [? | [? | [? | ?]]]]]]]] by lia.

Ltac window_constants :=
  change 0xfffffffffff00000 with (Z.shiftl (Z.ones 44) 20);
  change 0xfffff000 with (Z.shiftl (Z.ones 20) 12);
  mask_constants.

Ltac window_bits :=
  let i := fresh "i" in
  let Hi := fresh "Hi" in
  apply Z.bits_inj'; intros i Hi; bit_regions_64 i;
  rewrite ?byte_mask_update_spec by lia;
  rewrite ?upper_lanes_high, ?base_lanes_high, ?limit_lanes_high by lia;
  bits_of i; rewrite ?Z.testbit_neg_r by lia; bits_core.

Lemma clear_secondary_status_windows data self :
  windows_well_formed self -> windows_well_formed (clear_secondary_status data self).
Proof.
  unfold windows_well_formed, clear_secondary_status. intros H.
  split_truthy; exact H.
Qed.

Lemma write_config_register_windows reg data mask self self' :
  0 <= mask < 16 ->
  windows_well_formed self ->
  write_config_register reg data mask self = Ok self' ->
  windows_well_formed self'.
Proof.
  intros Hmask Hwf H.
  destruct (Z.eq_dec reg 7) as [-> | Hne7].
  - rewrite write_config_register_7 in H. cbv zeta in H. injection H as <-.
    match goal with
    | |- windows_well_formed (if ?c then clear_secondary_status ?d ?s else ?s) =>
        assert (windows_well_formed s) as Hs;
        [ | destruct c; [now apply clear_secondary_status_windows | exact Hs] ]
    end.
    destruct Hwf as (Hiob & Hiol & Hmb & Hml & Hpb & Hpl).
    unfold windows_well_formed.
    split_truthy; cbn [io_base io_limit mem_base mem_limit prefetchable_mem_base
                         prefetchable_mem_limit set_io_base set_io_limit];
      repeat split; try assumption.
    all: try (rewrite Hiob; window_constants; window_bits).
    all: rewrite Hiol; window_constants; window_bits.
  - destruct Hwf as (Hiob & Hiol & Hmb & Hml & Hpb & Hpl).
    unfold windows_well_formed.
    write_cases H Hreg; try contradiction;
      try (apply update_bar_frame in H as [f ->]);
      try (injection H as <-);
      split_truthy;
      cbn [io_base io_limit mem_base mem_limit prefetchable_mem_base
             prefetchable_mem_limit set_io_base set_io_limit set_mem_base set_mem_limit
             set_prefetchable_mem_base set_prefetchable_mem_limit set_fn
             set_pri_bus_num set_sec_bus_num set_sub_bus_num
             set_parity_error_response_enable set_serr_enable set_secondary_bus_reset];
      repeat split; try assumption.
    all: first [ rewrite Hiob | rewrite Hiol | rewrite Hmb | rewrite Hml
               | rewrite Hpb | rewrite Hpl ];
      window_constants; window_bits.
Qed.

(** X3. The stored window registers stay well formed: they are so in the
    initial state, and every write with a 4-bit byte enable keeps them so,
    hence every sequence of such writes from the initial state. *)
Theorem window_registers_stay_well_formed :
  (forall f0, windows_well_formed (Bridge_init f0)) /\
  (forall reg data mask self self',
      0 <= mask < 16 ->
      windows_well_formed self ->
      write_config_register reg data mask self = Ok self' ->
      windows_well_formed self') /\
  (forall ws f0 self',
      Forall (fun w => 0 <= snd w < 16) ws ->
      write_config_registers ws (Bridge_init f0) = Ok self' ->
      windows_well_formed self').
Proof.
  assert (forall f0, windows_well_formed (Bridge_init f0)) as Hinit
      by (intros f0; repeat split).
  split; [exact Hinit | split; [exact write_config_register_windows | ]].
  intros ws f0. generalize (Bridge_init f0) (Hinit f0).
  induction ws as [ | [[reg data] mask] ws IH]; intros self Hself self' Hws H; cbn in H.
  - now injection H as <-.
  - unfold bindR in H.
    destruct (write_config_register reg data mask self) as [self1 | e] eqn:E;
      [ | discriminate].
    apply Forall_cons_1 in Hws as [Hmask Hws]. cbn in Hmask.
    eapply IH; [ | exact Hws | exact H].
    eapply write_config_register_windows; eauto.
Qed.




(** ** Programming a window, then routing through it *)

Lemma upstream_recv_type_1 node tlp :
  In (fmt_type tlp) [CFG_READ_1; CFG_WRITE_1] ->
  check tlp = true ->
  upstream_recv node tlp =
  let self := node_bridge node in
  if between (sec_bus_num self) (bus (dest_id tlp)) (sub_bus_num self)
  then route_downstream_tlp node
         (if bus (dest_id tlp) =? sec_bus_num self then change_to_type_0 tlp else tlp)
         false
  else ([], Ok tt).
Proof.
  intros Hin Hc. unfold upstream_recv. rewrite assert_true by exact Hc.
  cbn in Hin. destruct Hin as [<- | [<- | []]]; reflexivity.
Qed.

Lemma upstream_recv_memory node tlp :
  In (fmt_type tlp) [MEM_READ; MEM_READ_64; MEM_WRITE; MEM_WRITE_64] ->
  check tlp = true ->
  upstream_recv node tlp =
  let self := node_bridge node in
  if match_bar (fn self) (address tlp) false then ([handle_tlp tlp], Ok tt)
  else if between (mem_base self) (address tlp) (mem_limit self)
          || between (prefetchable_mem_base self) (address tlp)
                     (prefetchable_mem_limit self)
       then route_downstream_tlp node tlp false
       else ([], Ok tt).
Proof.
  intros Hin Hc. unfold upstream_recv. rewrite assert_true by exact Hc.
  cbn in Hin. destruct Hin as [<- | [<- | [<- | [<- | []]]]]; reflexivity.
Qed.

Lemma upstream_recv_io node tlp :
  In (fmt_type tlp) [IO_READ; IO_WRITE] ->
  check tlp = true ->
  upstream_recv node tlp =
  let self := node_bridge node in
  if match_bar (fn self) (address tlp) true then ([handle_tlp tlp], Ok tt)
  else if between (io_base self) (address tlp) (io_limit self)
       then route_downstream_tlp node tlp false
       else ([], Ok tt).
Proof.
  intros Hin Hc. unfold upstream_recv. rewrite assert_true by exact Hc.
  cbn in Hin. destruct Hin as [<- | [<- | []]]; reflexivity.
Qed.

Lemma between_true lo x hi : lo <= x <= hi -> between lo x hi = true.
Proof.
  intros [Hlo Hhi]. unfold between.
  now rewrite (proj2 (Z.leb_le _ _) Hlo), (proj2 (Z.leb_le _ _) Hhi).
Qed.

Lemma between_false lo x hi : ~ lo <= x <= hi -> between lo x hi = false.
Proof.
  intros Hout. unfold between.
  destruct (Z.leb_spec lo x), (Z.leb_spec x hi); try reflexivity.
  exfalso. apply Hout. lia.
Qed.

Lemma memory_window_stored data self :
  windows_well_formed self ->
  byte_mask_update (mem_base self) (Z.shiftl (Z.land 0xF 0x3) 2)
                   (Z.shiftl data 16) 0xfff00000
  = Z.shiftl (Z.land data 0xfff0) 16 /\
  Z.lor (byte_mask_update (mem_limit self) (Z.land 0xF 0xc) data 0xfff00000) 0xfffff
  = Z.lor (Z.land data 0xfff00000) 0xfffff.
Proof.
  intros (_ & _ & Hmb & Hml & _ & _).
  change (Z.shiftl (Z.land 0xF 0x3) 2) with 12. change (Z.land 0xF 0xc) with 12.
  split; [rewrite Hmb | rewrite Hml];
    change 0xfff0 with (Z.shiftl (Z.ones 12) 4); window_constants; window_bits.
Qed.

(** X5. Programming the memory window and routing through it.  After a
    full write of [data] to register 8 of a bridge with well-formed windows,
    the stored window is [(data & 0xfff0) << 16, (data & 0xfff00000) | 0xfffff];
    a memory request from upstream that no BAR of the bridge claims and that
    lies outside the prefetchable window is sent downstream when its address
    is in that window and is dropped otherwise. *)
Theorem memory_window_programmed_then_routed
    (data : Z) (self self' : Bridge) (tlp : Tlp) :
  windows_well_formed self ->
  write_config_register 8 data 0xF self = Ok self' ->
  In (fmt_type tlp) [MEM_READ; MEM_READ_64; MEM_WRITE; MEM_WRITE_64] ->
  check tlp = true ->
  match_bar (fn self') (address tlp) false = false ->
  ~ prefetchable_mem_base self <= address tlp <= prefetchable_mem_limit self ->
  let base := Z.shiftl (Z.land data 0xfff0) 16 in
  let limit := Z.lor (Z.land data 0xfff00000) 0xfffff in
  mem_base self' = base /\
  mem_limit self' = limit /\
  (base <= address tlp <= limit ->
   upstream_recv (Bridge_node self') tlp = downstream_send self' tlp) /\
  (~ base <= address tlp <= limit ->
   upstream_recv (Bridge_node self') tlp = ([], Ok tt)).
Proof.
  intros Hwf Hw Hkind Hc Hbar Hpref. cbv zeta.
  rewrite write_config_register_8 in Hw. injection Hw as <-.
  destruct (memory_window_stored data self Hwf) as [Hb Hl].
  rewrite (upstream_recv_memory _ _ Hkind Hc). cbv zeta.
  cbn [node_bridge] in *. rewrite Hbar.
  cbn [mem_base mem_limit prefetchable_mem_base prefetchable_mem_limit
         set_mem_base set_mem_limit] in *.
  rewrite Hb, Hl, (between_false _ _ _ Hpref), orb_false_r.
  repeat split.
  - intros Hin. now rewrite (between_true _ _ _ Hin).
  - intros Hout. now rewrite (between_false _ _ _ Hout).
Qed.

(** X6. Programming the bus numbers and routing through them.  After a
    write to register 6 with byte enables 1 and 2, the secondary and
    subordinate bus numbers are bytes 1 and 2 of the data; a type 1
    configuration request from upstream is then routed downstream exactly
    when its bus lies between them, and dropped otherwise, so that nothing
    passes when byte 2 is below byte 1. *)
Theorem bus_numbers_programmed_then_routed
    (data mask : Z) (self self' : Bridge) (node : Node) (tlp : Tlp) :
  Z.testbit mask 1 = true ->
  Z.testbit mask 2 = true ->
  write_config_register 6 data mask self = Ok self' ->
  node_bridge node = self' ->
  In (fmt_type tlp) [CFG_READ_1; CFG_WRITE_1] ->
  check tlp = true ->
  let sec := Z.land (Z.shiftr data 8) 0xff in
  let sub := Z.land (Z.shiftr data 16) 0xff in
  sec_bus_num self' = sec /\
  sub_bus_num self' = sub /\
  (sec <= bus (dest_id tlp) <= sub ->
   upstream_recv node tlp =
   route_downstream_tlp node
     (if bus (dest_id tlp) =? sec then change_to_type_0 tlp else tlp) false) /\
  (~ sec <= bus (dest_id tlp) <= sub -> upstream_recv node tlp = ([], Ok tt)) /\
  (sub < sec -> upstream_recv node tlp = ([], Ok tt)).
Proof.
  intros H1 H2 Hw Hnode Hkind Hc. cbv zeta.
  unfold write_config_register in Hw. cbn [Z.eqb Pos.eqb bindR] in Hw.
  rewrite truthy_land_2, truthy_land_4, H1, H2 in Hw. injection Hw as <-.
  assert (sec_bus_num (node_bridge node) = Z.land (Z.shiftr data 8) 0xff /\
          sub_bus_num (node_bridge node) = Z.land (Z.shiftr data 16) 0xff)
    as [Hsec Hsub] by (rewrite Hnode; destruct (truthy (Z.land mask 1)); now split).
  rewrite (upstream_recv_type_1 _ _ Hkind Hc). cbv zeta. rewrite Hsec, Hsub.
  rewrite <- Hnode, Hsec, Hsub.
  repeat split.
  - intros Hin. now rewrite (between_true _ _ _ Hin).
  - intros Hout. now rewrite (between_false _ _ _ Hout).
  - intros Hlt. rewrite between_false; [reflexivity | lia].
Qed.

(** X7. A bridge in its initial state has windows that are not empty: a
    memory request from upstream that no BAR claims is sent downstream when
    its address is in [0, 0xfffff], an IO request when its address is in
    [0, 0xfff]; outside these ranges the request is dropped. *)
Theorem initial_windows_forward_low_addresses (f0 : Function) (tlp : Tlp) :
  check tlp = true ->
  let self := Bridge_init f0 in
  (In (fmt_type tlp) [MEM_READ; MEM_READ_64; MEM_WRITE; MEM_WRITE_64] ->
   match_bar (fn self) (address tlp) false = false ->
   upstream_recv (Bridge_node self) tlp =
   if between 0 (address tlp) 0xfffff
   then ([downstream_tx downstream_port_send tlp], Ok tt)
   else ([], Ok tt)) /\
  (In (fmt_type tlp) [IO_READ; IO_WRITE] ->
   match_bar (fn self) (address tlp) true = false ->
   upstream_recv (Bridge_node self) tlp =
   if between 0 (address tlp) 0xfff
   then ([downstream_tx downstream_port_send tlp], Ok tt)
   else ([], Ok tt)).
Proof.
  intros Hc self. split; intros Hkind Hbar.
  - rewrite (upstream_recv_memory _ _ Hkind Hc). cbv zeta.
    cbn [node_bridge]. rewrite Hbar.
    change (mem_base self) with 0. change (mem_limit self) with 0xfffff.
    change (prefetchable_mem_base self) with 0.
    change (prefetchable_mem_limit self) with 0xfffff.
    rewrite orb_diag. destruct (between 0 (address tlp) 0xfffff); [ | reflexivity].
    now apply downstream_send_ok.
  - rewrite (upstream_recv_io _ _ Hkind Hc). cbv zeta.
    cbn [node_bridge]. rewrite Hbar.
    change (io_base self) with 0. change (io_limit self) with 0xfff.
    destruct (between 0 (address tlp) 0xfff); [ | reflexivity].
    now apply downstream_send_ok.
Qed.

(** ** The fan-out router, port by port *)

Lemma route_to_port_shape p dev tlp ok :
  is_broadcast (fmt_type tlp) = false ->
  route_to_port p dev tlp ok =
  if port_claims dev tlp then ([ext_recv p tlp], Ok Return)
  else if is_other (fmt_type tlp)
       then ([], Raise (Exception "Unknown/invalid packet type"))
       else ([], Ok (Continue ok)).
Proof.
  unfold port_claims, route_to_port, forward. intros Hb.
  destruct (fmt_type tlp); try discriminate Hb; cbn;
    repeat match goal with
           | |- context [if ?c then _ else _] =>
               lazymatch type of c with bool => destruct c; cbn end
           end;
    reflexivity.
Qed.

Lemma for_each_port_first_match other :
  forall q p dev tlp ok,
    is_broadcast (fmt_type tlp) = false ->
    other !! p = Some dev ->
    port_claims dev tlp = true ->
    (forall p' dev', (p' < p)%nat -> other !! p' = Some dev' ->
                     port_claims dev' tlp = false) ->
    for_each_port q other tlp ok = ([ext_recv (q + p) tlp], Ok Return).
Proof.
  induction other as [ | d other IH]; intros q p dev tlp ok Hb Hp Hc Hfirst;
    [discriminate | ].
  assert (is_other (fmt_type tlp) = false) as Hknown.
  { revert Hc. unfold port_claims, route_to_port.
    destruct (fmt_type tlp); try reflexivity. discriminate. }
  cbn [for_each_port]. rewrite (route_to_port_shape _ _ _ _ Hb).
  destruct p as [ | p].
  - injection Hp as ->. rewrite Hc, Nat.add_0_r. reflexivity.
  - rewrite (Hfirst 0%nat d) by (reflexivity || lia). rewrite Hknown.
    change ([], Ok (Continue ok)) with (@ret Flow (Continue ok)).
    rewrite bind_ret_l, (IH (S q) p dev tlp ok Hb Hp Hc).
    + do 3 f_equal. lia.
    + intros p' dev' Hlt Hp'. apply (Hfirst (S p') dev'); [lia | exact Hp'].
Qed.

Lemma for_each_port_no_match other :
  forall q tlp ok,
    is_broadcast (fmt_type tlp) = false ->
    is_other (fmt_type tlp) = false ->
    (forall p dev, other !! p = Some dev -> port_claims dev tlp = false) ->
    for_each_port q other tlp ok = ([], Ok (Continue ok)).
Proof.
  induction other as [ | d other IH]; intros q tlp ok Hb Hknown Hnone; [reflexivity | ].
  cbn [for_each_port]. rewrite (route_to_port_shape _ _ _ _ Hb).
  rewrite (Hnone 0%nat d), Hknown by reflexivity.
  change ([], Ok (Continue ok)) with (@ret Flow (Continue ok)).
  rewrite bind_ret_l. apply IH; [exact Hb | exact Hknown | ].
  intros p dev Hp. now apply (Hnone (S p) dev).
Qed.

(** The loop, for a packet of a known kind that is not a broadcast, ends in
    one of two ways. *)
Lemma for_each_port_cases other tlp :
  is_broadcast (fmt_type tlp) = false ->
  is_other (fmt_type tlp) = false ->
  for_each_port 0 other tlp false = ([], Ok (Continue false)) \/
  exists p dev, other !! p = Some dev /\ port_claims dev tlp = true /\
                for_each_port 0 other tlp false = ([ext_recv p tlp], Ok Return).
Proof.
  intros Hb Hknown.
  assert (forall q ok,
             for_each_port q other tlp ok = ([], Ok (Continue ok)) \/
             exists p dev, other !! p = Some dev /\ port_claims dev tlp = true /\
                           for_each_port q other tlp ok
                           = ([ext_recv (q + p) tlp], Ok Return)) as H.
  { induction other as [ | d other IH]; intros q ok; [now left | ].
    cbn [for_each_port]. rewrite (route_to_port_shape _ _ _ _ Hb), Hknown.
    destruct (port_claims d tlp) eqn:Hd.
    - right. exists 0%nat, d. rewrite Nat.add_0_r. now repeat split.
    - change ([], Ok (Continue ok)) with (@ret Flow (Continue ok)).
      rewrite bind_ret_l.
      destruct (IH (S q) ok) as [Hnone | (p & dev & Hp & Hc & Hret)]; [now left | ].
      right. exists (S p), dev. repeat split; trivial.
      rewrite Hret. do 3 f_equal. lia. }
  exact (H 0%nat false).
Qed.

Lemma route_return d self tlp from_downstream t :
  check tlp = true ->
  for_each_port 0 (downstream_port_other self) tlp false = (t, Ok Return) ->
  SwitchUpstreamPort_route_downstream_tlp (S d) self tlp from_downstream = (t, Ok tt).
Proof.
  intros Hc Hloop. cbn [SwitchUpstreamPort_route_downstream_tlp].
  rewrite assert_true, Hloop by exact Hc. cbn. now rewrite app_nil_r.
Qed.


(** X9. One hand-off: a packet of a known kind that is not a broadcast makes
    the router call exactly one collaborator, and return.  The packet goes
    to a port, or its Unsupported-Request completion goes upstream, or, for
    a packet from downstream only, the completion goes to a port. *)
Theorem fan_out_single_hand_off
    (self : SwitchUpstreamPort) (tlp : Tlp) (from_downstream : bool) (h : Handler) :
  is_broadcast (fmt_type tlp) = false ->
  is_other (fmt_type tlp) = false ->
  check tlp = true ->
  upstream_tx_handler (bridge self) = Some h ->
  let cpl := create_ur_completion_for_tlp tlp (completer (bridge self)) in
  check cpl = true ->
  exists ev,
    route_downstream_tlp (SwitchUpstreamPort_node self) tlp from_downstream
    = ([ev], Ok tt) /\
    ((exists p, (p < length (downstream_port_other self))%nat /\ ev = ext_recv p tlp) \/
     ev = upstream_tx h cpl \/
     (from_downstream = true /\
      exists p, (p < length (downstream_port_other self))%nat /\ ev = ext_recv p cpl)).
Proof.
  intros Hb Hknown Hc Hh cpl Hcpl.
  assert (forall t, is_broadcast (fmt_type t) = false -> is_other (fmt_type t) = false ->
                    check t = true ->
                    check (create_ur_completion_for_tlp t (completer (bridge self))) = true ->
                    exists ev,
                      SwitchUpstreamPort_route_downstream_tlp 1 self t false = ([ev], Ok tt) /\
                      ((exists p, (p < length (downstream_port_other self))%nat /\
                                  ev = ext_recv p t) \/
                       ev = upstream_tx h
                              (create_ur_completion_for_tlp t (completer (bridge self)))))
    as Hup.
  { intros t Hbt Hkt Hct Hcc.
    destruct (for_each_port_cases (downstream_port_other self) t Hbt Hkt)
      as [Hnone | (p & dev & Hp & _ & Hret)].
    - rewrite (route_not_ok _ _ _ _ Hct Hnone). cbv zeta.
      rewrite (upstream_send_ok _ _ _ Hcc Hh). eauto.
    - rewrite (route_return _ _ _ _ _ Hct Hret).
      eexists. split; [reflexivity | left].
      exists p. split; [ | reflexivity]. now apply lookup_lt_Some in Hp. }
  rewrite route_downstream_tlp_switch.
  destruct from_downstream.
  - destruct (for_each_port_cases (downstream_port_other self) tlp Hb Hknown)
      as [Hnone | (p & dev & Hp & _ & Hret)].
    + rewrite (route_not_ok _ _ _ _ Hc Hnone). cbv zeta. fold cpl.
      rewrite (route_from_upstream_depth _ 0).
      destruct (Hup cpl) as (ev & Hev & Hwhich); try reflexivity; [exact Hcpl | exact Hcpl | ].
      exists ev. split; [exact Hev | ].
      destruct Hwhich as [Hport | ->]; [right; right; now split | right; left; reflexivity].
    + rewrite (route_return _ _ _ _ _ Hc Hret).
      eexists. split; [reflexivity | left].
      exists p. split; [ | reflexivity]. now apply lookup_lt_Some in Hp.
  - rewrite (route_from_upstream_depth _ 0).
    destruct (Hup tlp Hb Hknown Hc Hcpl) as (ev & Hev & Hwhich).
    exists ev. split; [exact Hev | ]. destruct Hwhich as [Hport | ->]; auto.
Qed.

(** X10. A packet of a kind the router does not know raises "Unknown/invalid
    packet type" as soon as there is a port to try it on, before any call;
    a switch upstream port without ports answers it with an
    Unsupported-Request completion instead.  The two routing tables of a
    bridge raise on it in every case. *)
Theorem unknown_packet_kind
    (self : SwitchUpstreamPort) (node : Node) (tlp : Tlp) (from_downstream : bool) :
  is_other (fmt_type tlp) = true ->
  check tlp = true ->
  let unknown := Raise (Exception "Unknown/invalid packet type") in
  (downstream_port_other self <> [] ->
   route_downstream_tlp (SwitchUpstreamPort_node self) tlp from_downstream
   = ([], unknown)) /\
  (downstream_port_other self = [] ->
   route_downstream_tlp (SwitchUpstreamPort_node self) tlp false
   = upstream_send (bridge self)
       (create_ur_completion_for_tlp tlp (completer (bridge self)))) /\
  upstream_recv node tlp = ([], unknown) /\
  downstream_recv node tlp = ([], unknown).
Proof.
  intros Hk Hc. cbv zeta.
  destruct (fmt_type tlp) eqn:Ht; try discriminate Hk.
  repeat split.
  - intros Hports. rewrite route_downstream_tlp_switch.
    cbn [SwitchUpstreamPort_route_downstream_tlp]. rewrite assert_true by exact Hc.
    destruct (downstream_port_other self) as [ | d other]; [contradiction | ].
    cbn [for_each_port]. unfold route_to_port. now rewrite Ht.
  - intros Hports. rewrite route_downstream_tlp_switch.
    apply route_not_ok; [exact Hc | now rewrite Hports].
  - unfold upstream_recv. rewrite assert_true by exact Hc. now rewrite Ht.
  - unfold downstream_recv. rewrite assert_true by exact Hc. now rewrite Ht.
Qed.

(** ** What the routers never do *)

Lemma bind_events {A B : Type} (P : Event -> Prop) (m : M A) (k : A -> M B) :
  Forall P (fst m) -> (forall a, Forall P (fst (k a))) -> Forall P (fst (bind m k)).
Proof.
  intros Hm Hk. unfold bind. destruct m as [t [a | e]]; [ | exact Hm].
  specialize (Hk a). destruct (k a) as [t' r]. cbn in *.
  apply Forall_app. now split.
Qed.

Lemma assert_events (P : Event -> Prop) b : Forall P (fst (assert b)).
Proof. destruct b; constructor. Qed.

Lemma route_to_port_events p dev tlp ok :
  Forall (fun ev => ev = ext_recv p tlp) (fst (route_to_port p dev tlp ok)).
Proof.
  unfold route_to_port, forward.
  destruct (fmt_type tlp); cbn;
    repeat match goal with
           | |- context [if ?c then _ else _] =>
               lazymatch type of c with bool => destruct c; cbn end
           end;
    repeat constructor.
Qed.

Lemma for_each_port_events other :
  forall q tlp ok,
    Forall (fun ev => exists p, ev = ext_recv p tlp) (fst (for_each_port q other tlp ok)).
Proof.
  induction other as [ | d other IH]; intros q tlp ok; cbn [for_each_port];
    [constructor | ].
  apply bind_events.
  - eapply Forall_impl; [apply route_to_port_events | ]. cbn. eauto.
  - intros [ | ok']; [constructor | apply IH].
Qed.

Lemma upstream_send_events self tlp :
  Forall (fun ev => exists h, ev = upstream_tx h tlp) (fst (upstream_send self tlp)).
Proof.
  unfold upstream_send. apply bind_events; [apply assert_events | ].
  intros _. destruct (upstream_tx_handler self); repeat constructor. eauto.
Qed.

Lemma route_step d self tlp from_downstream :
  SwitchUpstreamPort_route_downstream_tlp (S d) self tlp from_downstream =
  (assert (check tlp) ;;
   r <- for_each_port 0 (downstream_port_other self) tlp false ;;
   match r with
   | Return => ret tt
   | Continue ok =>
       if negb ok then
         let cpl := create_ur_completion_for_tlp tlp (completer (bridge self)) in
         if from_downstream then
           SwitchUpstreamPort_route_downstream_tlp d self cpl false
         else
           upstream_send (bridge self) cpl
       else ret tt
   end).
Proof. reflexivity. Qed.

(** X11. The fan-out router only hands packets to ports and completions to
    the upstream side: every call it makes is [ext_recv] of the packet or of
    its Unsupported-Request completion on some port, or the upstream
    transmit handler on that completion.  It never sends the packet itself
    upstream, never consumes it and never uses the downstream transmit
    handler. *)
Theorem fan_out_calls_only_ports_and_upstream
    (self : SwitchUpstreamPort) (tlp : Tlp) (from_downstream : bool) :
  let cpl := create_ur_completion_for_tlp tlp (completer (bridge self)) in
  Forall (fun ev =>
            (exists p, ev = ext_recv p tlp) \/
            (exists p, ev = ext_recv p cpl) \/
            (exists h, ev = upstream_tx h cpl))
         (fst (route_downstream_tlp (SwitchUpstreamPort_node self) tlp from_downstream)).
Proof.
  intros cpl. rewrite route_downstream_tlp_switch.
  assert (forall t,
             Forall (fun ev =>
                       (exists p, ev = ext_recv p t) \/
                       (exists h, ev = upstream_tx h
                                         (create_ur_completion_for_tlp t
                                            (completer (bridge self)))))
                    (fst (SwitchUpstreamPort_route_downstream_tlp 1 self t false)))
    as Hup.
  { intros t. cbn [SwitchUpstreamPort_route_downstream_tlp].
    apply bind_events; [apply assert_events | intros _].
    apply bind_events.
    - eapply Forall_impl; [apply for_each_port_events | ]. cbn. eauto.
    - intros [ | [ | ]]; cbn [negb]; try constructor.
      eapply Forall_impl; [apply upstream_send_events | ]. cbn. eauto. }
  destruct from_downstream.
  - rewrite route_step.
    apply bind_events; [apply assert_events | intros _].
    apply bind_events.
    + eapply Forall_impl; [apply for_each_port_events | ]. cbn. eauto.
    + intros [ | [ | ]]; cbn [negb]; try constructor. cbv zeta.
      rewrite (route_from_upstream_depth _ 0).
      eapply Forall_impl; [apply (Hup cpl) | ]. cbn.
      intros ev [Hport | Hupstream]; [right; left; exact Hport | right; right; exact Hupstream].
  - rewrite (route_from_upstream_depth _ 0).
    eapply Forall_impl; [apply (Hup tlp) | ]. cbn.
    intros ev [Hport | Hupstream]; [left; exact Hport | right; right; exact Hupstream].
Qed.

Ltac split_conditions :=
  repeat match goal with
         | |- context [if ?c then _ else _] =>
             lazymatch type of c with bool => destruct c; cbn end
         | |- context [match ?h with Some _ => _ | None => _ end] =>
             destruct h; cbn
         end.

(** X12. A plain bridge makes at most one call for a packet, in either
    direction; for a packet from upstream that call is never the upstream
    transmit handler; and a completion, an ID-routed message, an IO or memory
    request or a message to the root complex that arrives from downstream is
    never dropped: with both handlers set and valid packets it makes exactly
    one call and returns. *)
Theorem bridge_hands_off_once (self : Bridge) (tlp : Tlp) :
  let node := Bridge_node self in
  (length (fst (upstream_recv node tlp)) <= 1)%nat /\
  Forall (fun ev => forall h t, ev <> upstream_tx h t) (fst (upstream_recv node tlp)) /\
  (length (fst (downstream_recv node tlp)) <= 1)%nat /\
  (In (fmt_type tlp)
      [CPL; CPL_DATA; CPL_LOCKED; CPL_LOCKED_DATA; MSG_ID; MSG_DATA_ID;
       IO_READ; IO_WRITE; MEM_READ; MEM_READ_64; MEM_WRITE; MEM_WRITE_64;
       MSG_TO_RC; MSG_DATA_TO_RC] ->
   check tlp = true ->
   upstream_tx_handler self <> None ->
   downstream_tx_handler self <> None ->
   exists ev, downstream_recv node tlp = ([ev], Ok tt)).
Proof.
  cbv zeta. repeat split.
  - unfold upstream_recv, route_downstream_tlp, Bridge_route_downstream_tlp,
      downstream_send, change_to_type_0, assert.
    cbn [node_bridge]. destruct (check tlp); cbn; [ | lia].
    destruct (fmt_type tlp); cbn; split_conditions; lia.
  - unfold upstream_recv, route_downstream_tlp, Bridge_route_downstream_tlp,
      downstream_send, change_to_type_0, assert.
    cbn [node_bridge]. destruct (check tlp); cbn; [ | constructor].
    destruct (fmt_type tlp); cbn; split_conditions;
      repeat constructor; discriminate.
  - unfold downstream_recv, route_downstream_tlp, Bridge_route_downstream_tlp,
      downstream_send, upstream_send, assert.
    cbn [node_bridge]. destruct (check tlp); cbn; [ | lia].
    destruct (fmt_type tlp); cbn; split_conditions; lia.
  - intros Hkind Hc Hup Hdown.
    unfold downstream_recv, route_downstream_tlp, Bridge_route_downstream_tlp,
      downstream_send, upstream_send, assert.
    cbn [node_bridge]. rewrite Hc.
    destruct (upstream_tx_handler self) as [hu | ]; [ | contradiction].
    destruct (downstream_tx_handler self) as [hd | ]; [ | contradiction].
    cbn in Hkind.
    repeat (destruct Hkind as [Hkind | Hkind]; [rewrite <- Hkind | ]);
      try contradiction; cbn; split_conditions; eauto.
Qed.

Lemma for_each_port_raises other :
  forall q tlp ok t e,
    for_each_port q other tlp ok = (t, Raise e) ->
    e = Exception "Unknown/invalid packet type".
Proof.
  induction other as [ | d other IH]; intros q tlp ok t e H; cbn [for_each_port] in H;
    [discriminate | ].
  unfold bind in H.
  destruct (route_to_port q d tlp ok) as [t1 [[ | ok1] | e1]] eqn:E.
  - discriminate.
  - destruct (for_each_port (S q) other tlp ok1) as [t2 r2] eqn:E2.
    injection H as _ ->. eapply IH; exact E2.
  - injection H as _ <-. revert E. unfold route_to_port, forward.
    destruct (fmt_type tlp); cbn; split_conditions; intros H; now inversion H.
Qed.

(** X13. The router's call to itself never nests further: it passes
    [from_downstream=False], so two levels of calls do whatever any greater
    depth does, and the depth bound is never hit. *)
Theorem router_recursion_is_one_level
    (d : nat) (self : SwitchUpstreamPort) (tlp : Tlp) (from_downstream : bool) :
  SwitchUpstreamPort_route_downstream_tlp (S (S d)) self tlp from_downstream
  = SwitchUpstreamPort_route_downstream_tlp 2 self tlp from_downstream /\
  snd (route_downstream_tlp (SwitchUpstreamPort_node self) tlp from_downstream)
  <> Raise RecursionError.
Proof.
  split; [reflexivity | ].
  assert (forall t, snd (SwitchUpstreamPort_route_downstream_tlp 1 self t false)
                    <> Raise RecursionError) as Hup.
  { intros t. cbn [SwitchUpstreamPort_route_downstream_tlp].
    unfold assert, upstream_send. destruct (check t); cbn; [ | discriminate].
    destruct (for_each_port 0 (downstream_port_other self) t false)
      as [t1 [[ | [ | ]] | e]] eqn:E; cbn; try discriminate.
    - unfold assert. split_conditions; discriminate.
    - apply for_each_port_raises in E as ->. discriminate. }
  rewrite route_downstream_tlp_switch. destruct from_downstream.
  - rewrite route_step.
    unfold assert. destruct (check tlp); cbn [bind ret raise snd]; [ | discriminate].
    destruct (for_each_port 0 (downstream_port_other self) tlp false)
      as [t1 [[ | [ | ]] | e]] eqn:E; cbn [bind ret raise snd negb app];
      try discriminate.
    + cbv zeta. rewrite (route_from_upstream_depth _ 0).
      specialize (Hup (create_ur_completion_for_tlp tlp (completer (bridge self)))).
      destruct (SwitchUpstreamPort_route_downstream_tlp 1 self
                  (create_ur_completion_for_tlp tlp (completer (bridge self))) false)
        as [t2 r2]. exact Hup.
    + apply for_each_port_raises in E as ->. discriminate.
  - rewrite (route_from_upstream_depth _ 0). apply Hup.
Qed.

(** ** Peer to peer, and writes that enable no byte *)

Lemma port_claims_memory dev tlp :
  In (fmt_type tlp) [MEM_READ; MEM_READ_64; MEM_WRITE; MEM_WRITE_64] ->
  port_claims dev tlp =
  match_bar (dev_fn dev) (address tlp) false
  || isinstance_Bridge_and dev (fun dev =>
       between (mem_base dev) (address tlp) (mem_limit dev)
       || between (prefetchable_mem_base dev) (address tlp)
                  (prefetchable_mem_limit dev)).
Proof.
  intros Hin. unfold port_claims, route_to_port, forward. cbn in Hin.
  destruct Hin as [<- | [<- | [<- | [<- | []]]]];
    destruct (match_bar (dev_fn dev) (address tlp) false); cbn;
    try reflexivity;
    match goal with
    | |- context [isinstance_Bridge_and dev ?cond] =>
        destruct (isinstance_Bridge_and dev cond); reflexivity
    end.
Qed.

Lemma downstream_recv_memory node tlp :
  In (fmt_type tlp) [MEM_READ; MEM_READ_64; MEM_WRITE; MEM_WRITE_64] ->
  check tlp = true ->
  downstream_recv node tlp =
  let self := node_bridge node in
  if match_bar (fn self) (address tlp) false then ([handle_tlp tlp], Ok tt)
  else if between (mem_base self) (address tlp) (mem_limit self)
          || between (prefetchable_mem_base self) (address tlp)
                     (prefetchable_mem_limit self)
       then route_downstream_tlp node tlp true
       else upstream_send self tlp.
Proof.
  intros Hin Hc. unfold downstream_recv. rewrite assert_true by exact Hc.
  cbn in Hin. destruct Hin as [<- | [<- | [<- | [<- | []]]]]; reflexivity.
Qed.

(** X14. Peer to peer through a switch: a memory request that arrives from
    downstream, that no BAR of the upstream port claims and whose address is
    in one of its memory windows, goes to the first downstream port that
    claims it (by a BAR of the port's parent, or by a memory window when the
    parent is a bridge) and nowhere else; nothing is sent upstream. *)
Theorem peer_to_peer_memory_request
    (self : SwitchUpstreamPort) (tlp : Tlp) (p : nat) (dev : Device) :
  In (fmt_type tlp) [MEM_READ; MEM_READ_64; MEM_WRITE; MEM_WRITE_64] ->
  check tlp = true ->
  match_bar (fn (bridge self)) (address tlp) false = false ->
  mem_base (bridge self) <= address tlp <= mem_limit (bridge self) \/
  prefetchable_mem_base (bridge self) <= address tlp
                                      <= prefetchable_mem_limit (bridge self) ->
  downstream_port_other self !! p = Some dev ->
  port_claims dev tlp = true ->
  (forall p' dev', (p' < p)%nat -> downstream_port_other self !! p' = Some dev' ->
                   port_claims dev' tlp = false) ->
  downstream_recv (SwitchUpstreamPort_node self) tlp = ([ext_recv p tlp], Ok tt) /\
  port_claims dev tlp =
  match_bar (dev_fn dev) (address tlp) false
  || isinstance_Bridge_and dev (fun dev =>
       between (mem_base dev) (address tlp) (mem_limit dev)
       || between (prefetchable_mem_base dev) (address tlp)
                  (prefetchable_mem_limit dev)).
Proof.
  intros Hkind Hc Hbar Hwin Hp Hclaim Hfirst.
  split; [ | exact (port_claims_memory dev tlp Hkind)].
  rewrite (downstream_recv_memory _ _ Hkind Hc). cbv zeta. cbn [node_bridge].
  rewrite Hbar.
  assert (between (mem_base (bridge self)) (address tlp) (mem_limit (bridge self))
          || between (prefetchable_mem_base (bridge self)) (address tlp)
                     (prefetchable_mem_limit (bridge self)) = true) as ->.
  { destruct Hwin as [Hin | Hin]; rewrite (between_true _ _ _ Hin);
      [reflexivity | apply orb_true_r]. }
  rewrite route_downstream_tlp_switch.
  apply route_return; [exact Hc | ].
  assert (is_broadcast (fmt_type tlp) = false) as Hb
      by (cbn in Hkind; destruct Hkind as [<- | [<- | [<- | [<- | []]]]]; reflexivity).
  exact (for_each_port_first_match _ 0%nat p dev tlp false Hb Hp Hclaim Hfirst).
Qed.

Lemma byte_mask_update_no_lanes old new bitmask :
  byte_mask_update old 0 new bitmask = old.
Proof.
  unfold byte_mask_update. cbn [byte_lanes].
  now rewrite Z.land_0_r, Z.lor_0_r, Z.land_m1_r.
Qed.

Lemma lor_marker x m : x = Z.lor (Z.land x m) 0xfffff -> Z.lor x 0xfffff = x.
Proof. intros H. rewrite H at 1. now rewrite <- Z.lor_assoc, Z.lor_diag. Qed.

(** X15. A write that enables no byte leaves a bridge with well-formed
    windows exactly as it was, for each of the registers 5 to 12 and 15
    (register 5 provided [bar] and [bar_mask] have their two items). *)
Theorem write_without_byte_enable_changes_nothing (reg data : Z) (self : Bridge) :
  In reg [5; 6; 7; 8; 9; 10; 11; 12; 15] ->
  windows_well_formed self ->
  (reg = 5 -> (1 < length (bar (fn self)))%nat /\ (1 < length (bar_mask (fn self)))%nat) ->
  write_config_register reg data 0 self = Ok self.
Proof.
  intros Hreg (Hiob & Hiol & Hmb & Hml & Hpb & Hpl) Hbar. cbn in Hreg.
  repeat (destruct Hreg as [Hreg | Hreg]; [subst reg | ]); [ .. | contradiction];
    unfold write_config_register; cbn [Z.eqb Pos.eqb bindR];
    change (Z.shiftl (Z.land 0 3) 2) with 0; change (Z.land 0 12) with 0;
    change (Z.shiftl 0 4) with 0;
    repeat match goal with
           | |- context [truthy (Z.land 0 ?k)] => change (truthy (Z.land 0 k)) with false
           end;
    rewrite ?byte_mask_update_no_lanes.
  - destruct (Hbar eq_refl) as [Hl Hm]. unfold update_bar, index.
    destruct (lookup_lt_is_Some_2 (bar (fn self)) 1 Hl) as [b Hb].
    destruct (lookup_lt_is_Some_2 (bar_mask (fn self)) 1 Hm) as [m Hm'].
    rewrite Hb, Hm'. cbn [bindR]. rewrite byte_mask_update_no_lanes.
    rewrite (list_insert_id _ _ _ Hb). now destruct self as [[]].
  - now destruct self.
  - now destruct self.
  - cbn [mem_limit set_mem_base]. rewrite (lor_marker _ _ Hml). now destruct self.
  - cbn [prefetchable_mem_limit set_prefetchable_mem_base].
    rewrite (lor_marker _ _ Hpl). now destruct self.
  - now destruct self.
  - now destruct self.
  - now destruct self.
  - now destruct self as [[]].
Qed.
End Bridge.

(** ** Concrete instances *)

(** C4 at a bridge with every secondary status bit set: data bits 24 and 31
    clear two of them. *)
Lemma secondary_status_write_1_to_clear_witness :
  Z.testbit 0x8 3 = true /\
  exists self',
    write_config_register base_write_ignored 7 0x81000000 0x8 bridge_with_errors
    = Ok self' /\
    Forall (fun '(k, field) =>
              field self' = field bridge_with_errors && negb (Z.testbit 0x81000000 k))
           secondary_status_bits.
Proof.
  split; [reflexivity | ].
  apply (proj1 (secondary_status_write_1_to_clear base_write_ignored)).
  reflexivity.
Defined.

(** C8 at a write to the upper half of the IO window. *)
Lemma limit_registers_stay_forced_witness :
  limits_forced bridge_5_10 /\
  exists self',
    write_config_register base_write_ignored 12 0xffffffff 0xF bridge_5_10 = Ok self' /\
    limits_forced self'.
Proof.
  assert (limits_forced bridge_5_10) as Hinit by (repeat split).
  split; [exact Hinit | ].
  eexists. split; [reflexivity | ].
  apply (proj1 (proj2 (limit_registers_stay_forced base_write_ignored))
           12 0xffffffff 0xF bridge_5_10 _ Hinit).
  reflexivity.
Defined.

(** C10 at a bridge whose BAR 0 decodes 4 KiB. *)
Lemma bar0_write_also_delegates_witness :
  write_config_register base_write_ignored 4 0xffffffff 0xF bridge_with_bar =
    Ok (set_fn (set_bar [0xfffff000; 0] (fn bridge_with_bar)) bridge_with_bar) /\
  write_config_register base_write_ignored 5 0xffffffff 0xF bridge_with_bar =
    Ok (set_fn (set_bar [0; 0] (fn bridge_with_bar)) bridge_with_bar).
Proof.
  apply (bar0_write_also_delegates base_write_ignored 0xffffffff 0xF bridge_with_bar
           0 0xfffff000 0 0); reflexivity.
Defined.

(** C1, amended, at the switch: a memory read from bus 3 that no port
    claims. *)
Lemma unroutable_packet_answered_by_ur_completion_witness :
  let cpl := create_ur_completion_for_tlp mem_read_from_bus_3 (mkPcieId 1 0 0) in
  route_downstream_tlp no_bar check_passes (SwitchUpstreamPort_node switch)
    mem_read_from_bus_3 false
  = ([upstream_tx upstream_port_send cpl], Ok tt) /\
  route_downstream_tlp no_bar check_passes (SwitchUpstreamPort_node switch)
    mem_read_from_bus_3 true
  = route_downstream_tlp no_bar check_passes (SwitchUpstreamPort_node switch) cpl false.
Proof.
  destruct (unroutable_packet_answered_by_ur_completion no_bar check_passes switch
              mem_read_from_bus_3 [] false)
    as (_ & _ & _ & _ & Hup & Hdown); [reflexivity | reflexivity | reflexivity | ].
  split; [apply Hup; reflexivity | exact Hdown].
Defined.

(** C1 as claimed fails at the switch: the completion for a memory read
    that arrived from downstream goes to port 0, behind which bus 3 lies, not
    upstream; the completion for the same read arriving from upstream goes
    upstream and is not routed downstream. *)
Lemma ur_completion_direction_counterexample :
  let node := SwitchUpstreamPort_node switch in
  let tlp := mem_read_from_bus_3 in
  let cpl := create_ur_completion_for_tlp tlp (pcie_id (fn (bridge switch))) in
  is_broadcast (fmt_type tlp) = false /\
  for_each_port no_bar 0 (downstream_port_other switch) tlp false
  = ([], Ok (Continue false)) /\
  route_downstream_tlp no_bar check_passes node tlp true = ([ext_recv 0 cpl], Ok tt) /\
  route_downstream_tlp no_bar check_passes node tlp true
  <> upstream_send check_passes (bridge switch) cpl /\
  route_downstream_tlp no_bar check_passes node tlp false
  = ([upstream_tx upstream_port_send cpl], Ok tt) /\
  route_downstream_tlp no_bar check_passes node tlp false
  <> route_downstream_tlp no_bar check_passes node cpl false.
Proof.
  repeat split; try reflexivity; intros H; vm_compute in H; discriminate H.
Qed.

(** C2 on the code: an ID-routed message for bus 4, sent by the root, is
    not handed to port 1, behind which bus 4 lies, but answered with an
    Unsupported-Request completion; a message for bus 9, which lies behind no
    port, is handed to port 1 because its requester is on bus 4. *)
Lemma id_routed_message_keyed_on_requester_bus :
  let node := SwitchUpstreamPort_node switch in
  nth_error (downstream_port_other switch) 1
  = Some (Bridge_dev (downstream_port_at (mkPcieId 2 1 0) 4 4)) /\
  route_downstream_tlp no_bar check_passes node msg_to_bus_4 false
  = ([upstream_tx upstream_port_send
        (create_ur_completion_for_tlp msg_to_bus_4 (mkPcieId 1 0 0))], Ok tt) /\
  route_downstream_tlp no_bar check_passes node msg_from_bus_4 false
  = ([ext_recv 1 msg_from_bus_4], Ok tt).
Proof. repeat split. Qed.

(** C3, amended, at the switch: both ports receive the broadcast, in
    order. *)
Lemma broadcast_reaches_every_port_witness :
  route_downstream_tlp no_bar check_passes (SwitchUpstreamPort_node switch)
    broadcast false
  = ([ext_recv 0 broadcast; ext_recv 1 broadcast], Ok tt).
Proof.
  apply (broadcast_reaches_every_port no_bar check_passes switch broadcast false);
    [reflexivity | reflexivity | discriminate].
Defined.

(** C3 as claimed fails at a switch upstream port without downstream
    ports: a completion is synthesized and sent upstream. *)
Lemma broadcast_without_ports_counterexample :
  let self := switch_with [] in
  is_broadcast (fmt_type broadcast) = true /\
  downstream_port_other self = [] /\
  route_downstream_tlp no_bar check_passes (SwitchUpstreamPort_node self) broadcast false
  = ([upstream_tx upstream_port_send
        (create_ur_completion_for_tlp broadcast (mkPcieId 1 0 0))], Ok tt) /\
  status (create_ur_completion_for_tlp broadcast (mkPcieId 1 0 0)) = UR.
Proof. repeat split. Qed.

(** C6 at the bridge with secondary bus 5 and subordinate bus 10: bus 5 is
    changed to type 0 and forwarded, bus 7 is forwarded as it is, bus 12 is
    dropped. *)
Lemma type_1_config_request_from_upstream_witness :
  let node := Bridge_node bridge_5_10 in
  upstream_recv no_bar check_passes node (cfg_read_1_to_bus 5)
  = ([downstream_tx downstream_port_send (set_fmt_type CFG_READ_0 (cfg_read_1_to_bus 5))],
     Ok tt) /\
  upstream_recv no_bar check_passes node (cfg_read_1_to_bus 7)
  = ([downstream_tx downstream_port_send (cfg_read_1_to_bus 7)], Ok tt) /\
  upstream_recv no_bar check_passes node (cfg_read_1_to_bus 12) = ([], Ok tt).
Proof.
  intros node.
  destruct (type_1_config_request_from_upstream no_bar check_passes node
              (cfg_read_1_to_bus 5) CFG_READ_0) as (H5 & _ & _ & Hfwd);
    [left; split; reflexivity | reflexivity | ].
  destruct (type_1_config_request_from_upstream no_bar check_passes node
              (cfg_read_1_to_bus 7) CFG_READ_0) as (_ & H7 & _ & _);
    [left; split; reflexivity | reflexivity | ].
  destruct (type_1_config_request_from_upstream no_bar check_passes node
              (cfg_read_1_to_bus 12) CFG_READ_0) as (_ & _ & H12 & _);
    [left; split; reflexivity | reflexivity | ].
  split; [ | split].
  - rewrite H5; [ | cbn; lia | reflexivity].
    apply Hfwd; reflexivity.
  - rewrite H7; [ | cbn; lia | cbn; lia].
    apply Hfwd; reflexivity.
  - apply H12. cbn. lia.
Defined.

(** C7 at the host bridge, made the root: a completion for 0:0.0. *)
Lemma root_forwards_own_bus_upstream_witness :
  downstream_recv no_bar check_passes (SwitchUpstreamPort_node host_bridge)
    completion_for_root
  = ([upstream_tx (external_handler 0) completion_for_root], Ok tt).
Proof.
  apply (root_forwards_own_bus_upstream no_bar check_passes
           (SwitchUpstreamPort_node host_bridge) completion_for_root (mkPcieId 0 0 0));
    try reflexivity.
  left. split; [left; reflexivity | reflexivity].
Defined.

(** C9 at the switch. *)
Lemma gather_from_downstream_raises_witness :
  downstream_recv no_bar check_passes (SwitchUpstreamPort_node switch) gather
  = ([], Raise (Exception "TODO")).
Proof.
  apply (gather_from_downstream_raises no_bar check_passes
           (SwitchUpstreamPort_node switch) gather); [left | ]; reflexivity.
Defined.

(** ** Concrete instances of the further properties *)

(** X1 at the bridge with every status bit set: bytes 0, 1 and 3 of
    register 7 are written. *)
Lemma register_write_is_masked_update_witness :
  exists v self',
    read_config_register base_read_zero 7 bridge_with_errors = Ok v /\
    write_config_register base_write_ignored 7 0x8100a0b0 0xB bridge_with_errors
    = Ok self' /\
    read_config_register base_read_zero 7 self'
    = Ok (masked_write 7 0x8100a0b0 0xB v).
Proof.
  apply (register_write_is_masked_update base_read_zero base_write_ignored
           7 0x8100a0b0 0xB bridge_with_errors); [cbn; tauto | lia].
Defined.

(** X2 at register 7 of the same bridge. *)
Lemma bridge_register_reads_32_bits_witness :
  exists v,
    read_config_register base_read_zero 7 bridge_with_errors = Ok v /\
    0 <= v < 2 ^ 32.
Proof.
  eexists. split; [reflexivity | ].
  apply (bridge_register_reads_32_bits base_read_zero 7 bridge_with_errors);
    [cbn; tauto | reflexivity].
Defined.

(** X3 at a write of the memory window. *)
Lemma window_registers_stay_well_formed_witness :
  exists self',
    write_config_register base_write_ignored 8 0x80108000 0xF bridge_5_10 = Ok self' /\
    windows_well_formed self'.
Proof.
  eexists. split; [reflexivity | ].
  apply (proj1 (proj2 (window_registers_stay_well_formed base_write_ignored))
           8 0x80108000 0xF bridge_5_10 _ ltac:(lia)); [ | reflexivity].
  repeat split.
Defined.


(** X5 at a memory write to 0x80100040 after the window
    [0x80000000, 0x801fffff] has been programmed. *)
Lemma memory_window_programmed_then_routed_witness :
  exists self',
    write_config_register base_write_ignored 8 0x80108000 0xF bridge_5_10 = Ok self' /\
    mem_base self' = 0x80000000 /\
    mem_limit self' = 0x801fffff /\
    upstream_recv no_bar check_passes (Bridge_node self') mem_write_to_bus_4
    = downstream_send check_passes self' mem_write_to_bus_4.
Proof.
  destruct (write_config_register base_write_ignored 8 0x80108000 0xF bridge_5_10)
    as [self' | e] eqn:Hw; [ | discriminate Hw].
  exists self'. split; [reflexivity | ].
  destruct (memory_window_programmed_then_routed base_write_ignored no_bar check_passes
              0x80108000 bridge_5_10 self' mem_write_to_bus_4)
    as (Hbase & Hlimit & Hin & _);
    [ repeat split | exact Hw | cbn; tauto | reflexivity | reflexivity
    | intros [_ Hhi]; apply Z.leb_le in Hhi; discriminate Hhi | ].
  split; [exact Hbase | split; [exact Hlimit | ]].
  apply Hin. split; apply Z.leb_le; reflexivity.
Defined.

(** X6 at the bridge whose bus numbers are written as 4, 5 and 10. *)
Lemma bus_numbers_programmed_then_routed_witness :
  exists self',
    write_config_register base_write_ignored 6 0x000a0504 0x7
      (Bridge_init (function_at (mkPcieId 4 0 0))) = Ok self' /\
    sec_bus_num self' = 5 /\
    sub_bus_num self' = 10 /\
    upstream_recv no_bar check_passes (Bridge_node self') (cfg_read_1_to_bus 12)
    = ([], Ok tt).
Proof.
  destruct (write_config_register base_write_ignored 6 0x000a0504 0x7
              (Bridge_init (function_at (mkPcieId 4 0 0))))
    as [self' | e] eqn:Hw; [ | discriminate Hw].
  exists self'. split; [reflexivity | ].
  destruct (bus_numbers_programmed_then_routed base_write_ignored no_bar check_passes
              0x000a0504 0x7 (Bridge_init (function_at (mkPcieId 4 0 0))) self'
              (Bridge_node self') (cfg_read_1_to_bus 12))
    as (Hsec & Hsub & _ & Hout & _);
    [ reflexivity | reflexivity | exact Hw | reflexivity | cbn; tauto
    | reflexivity | ].
  split; [exact Hsec | split; [exact Hsub | ]].
  apply Hout. intros [_ Hhi]. apply Z.leb_le in Hhi. discriminate Hhi.
Defined.

(** X7 at a memory write to 0x80100040 and at one to address 0x40. *)
Lemma initial_windows_forward_low_addresses_witness :
  let self := Bridge_init (function_at (mkPcieId 4 0 0)) in
  upstream_recv no_bar check_passes (Bridge_node self) mem_write_to_bus_4 = ([], Ok tt) /\
  upstream_recv no_bar check_passes (Bridge_node self)
    (packet MEM_WRITE (mkPcieId 0 0 0) (mkPcieId 0 0 0) 0x40)
  = ([downstream_tx downstream_port_send
        (packet MEM_WRITE (mkPcieId 0 0 0) (mkPcieId 0 0 0) 0x40)], Ok tt).
Proof.
  split.
  - apply (proj1 (initial_windows_forward_low_addresses no_bar check_passes
                    (function_at (mkPcieId 4 0 0)) mem_write_to_bus_4 eq_refl));
      [cbn; tauto | reflexivity].
  - apply (proj1 (initial_windows_forward_low_addresses no_bar check_passes
                    (function_at (mkPcieId 4 0 0))
                    (packet MEM_WRITE (mkPcieId 0 0 0) (mkPcieId 0 0 0) 0x40) eq_refl));
      [cbn; tauto | reflexivity].
Defined.


(** X9 at the switch: the memory read from bus 3 that no port claims. *)
Lemma fan_out_single_hand_off_witness :
  exists ev,
    route_downstream_tlp no_bar check_passes (SwitchUpstreamPort_node switch)
      mem_read_from_bus_3 true
    = ([ev], Ok tt) /\
    ((exists p, (p < 2)%nat /\ ev = ext_recv p mem_read_from_bus_3) \/
     ev = upstream_tx upstream_port_send
            (create_ur_completion_for_tlp mem_read_from_bus_3 (mkPcieId 1 0 0)) \/
     (true = true /\
      exists p, (p < 2)%nat /\
                ev = ext_recv p (create_ur_completion_for_tlp mem_read_from_bus_3
                                   (mkPcieId 1 0 0)))).
Proof.
  apply (fan_out_single_hand_off no_bar check_passes switch mem_read_from_bus_3 true
           upstream_port_send); reflexivity.
Defined.

(** X10 at the switch, and at the switch without ports. *)
Lemma unknown_packet_kind_witness :
  route_downstream_tlp no_bar check_passes (SwitchUpstreamPort_node switch)
    unknown_packet false
  = ([], Raise (Exception "Unknown/invalid packet type")) /\
  route_downstream_tlp no_bar check_passes (SwitchUpstreamPort_node (switch_with []))
    unknown_packet false
  = ([upstream_tx upstream_port_send
        (create_ur_completion_for_tlp unknown_packet (mkPcieId 1 0 0))], Ok tt).
Proof.
  split.
  - apply (proj1 (unknown_packet_kind no_bar check_passes switch
                    (Bridge_node bridge_5_10) unknown_packet false eq_refl eq_refl)).
    discriminate.
  - rewrite (proj1 (proj2 (unknown_packet_kind no_bar check_passes (switch_with [])
                             (Bridge_node bridge_5_10) unknown_packet false
                             eq_refl eq_refl)) eq_refl).
    reflexivity.
Defined.

(** X12 at the bridge with buses 5 to 10: a completion from downstream for
    a requester on bus 0 goes upstream. *)
Lemma bridge_hands_off_once_witness :
  exists ev,
    downstream_recv no_bar check_passes (Bridge_node bridge_5_10) completion_for_root
    = ([ev], Ok tt).
Proof.
  apply (proj2 (proj2 (proj2 (bridge_hands_off_once no_bar check_passes bridge_5_10
                                completion_for_root))));
    [cbn; tauto | reflexivity | discriminate | discriminate].
Defined.

(** X14 at the switch with windows: a write from bus 3 to the window of the
    second port. *)
Lemma peer_to_peer_memory_request_witness :
  downstream_recv no_bar check_passes (SwitchUpstreamPort_node switch_with_windows)
    mem_write_to_bus_4
  = ([ext_recv 1 mem_write_to_bus_4], Ok tt).
Proof.
  eapply (proj1 (peer_to_peer_memory_request no_bar check_passes switch_with_windows
                   mem_write_to_bus_4 1 _ _ eq_refl eq_refl _ eq_refl eq_refl _)).
  Unshelve.
  - cbn. tauto.
  - left. split; apply Z.leb_le; reflexivity.
  - intros p' dev' Hlt Hp'. destruct p' as [ | p']; [ | lia].
    injection Hp' as <-. reflexivity.
Defined.

(** X15 at register 8 of the bridge with buses 5 to 10. *)
Lemma write_without_byte_enable_changes_nothing_witness :
  write_config_register base_write_ignored 8 0xffffffff 0 bridge_5_10 = Ok bridge_5_10.
Proof.
  apply (write_without_byte_enable_changes_nothing base_write_ignored 8 0xffffffff
           bridge_5_10); [cbn; tauto | repeat split | discriminate].
Defined.
